(** * cozorocks/bridge/tx.h: the transaction bridge [TxBridge]

    A shallow embedding of [struct TxBridge], the handle that drives either
    an optimistic or a pessimistic RocksDB transaction, and the properties of
    its constructors and member functions.

    The storage engine is foreign code reached through pointers: it is an
    interface here (class [Engine]), and every member function of the bridge
    is a program over that interface, so each theorem holds for every
    behaviour of the engine.  Dereferencing a null pointer is undefined in
    C++; the embedding makes it an explicit outcome, [Fatal].

    tx.h includes slice.h, status.h and iter.h and declares [start], which
    tx.cpp defines; none of these is among the sources.  What is taken from
    them ([convert_slice], [write_status], the status codes, [start]) is
    modelled from the spec and marked so. *)

From Stdlib Require Import List Bool String.
From Stdlib.Strings Require Import Byte.
Import ListNotations.

Set Implicit Arguments.

(** ** Bytes, slices and pointers *)

Definition bytes := list byte.

(** [RustBytes] is a borrowed byte slice coming from the caller, [Slice] the
    engine's view of one, [PinnableSlice] the engine's output buffer. *)
Definition RustBytes := bytes.
Definition Slice := bytes.
Definition PinnableSlice := bytes.

(** The buffer a default-constructed [PinnableSlice] holds. *)
Definition PinnableSlice_new : PinnableSlice := [].

(** Modelled from the spec: [convert_slice] of slice.h, which is not among
    the sources.  Keys and values are opaque byte sequences, arbitrary bytes,
    zero length permitted: the conversion keeps the bytes. *)
Definition convert_slice (b : RustBytes) : Slice := b.

(** A raw pointer and a [unique_ptr] are both nullable; the pointee of a
    [unique_ptr] is owned by the handle, so it is held in place. *)
Definition ptr (A : Type) := option A.
Definition unique_ptr (A : Type) := option A.
Definition nullptr {A : Type} : option A := None.
Definition make_unique {A : Type} (a : A) : unique_ptr A := Some a.

Definition is_null {A : Type} (p : option A) : bool :=
  match p with Some _ => false | None => true end.

(** ** Status *)

(** Modelled from the spec: the outcome codes of status.h, which is not among
    the sources: one of ok, not-found, conflict, error. *)
Inductive StatusCode : Type := kOk | kNotFound | kConflict | kError.

(** The engine-native status: a code and a message. *)
Record Status : Type := mkStatus { code : StatusCode; message : string }.

(** The caller's status sink. *)
Record RdbStatus : Type :=
  mkRdbStatus { rdb_code : StatusCode; rdb_message : string }.

(** Modelled from the spec: [write_status] of status.h, which is not among
    the sources.  The engine-native outcome is written into the sink
    verbatim, code and message; what the sink held before is overwritten. *)
Definition write_status (s : Status) (status : RdbStatus) : RdbStatus :=
  {| rdb_code := code s; rdb_message := message s |}.

(** ** Option structs *)

Module ReadOptions.
(** The fields of [rocksdb::ReadOptions] the bridge assigns. *)
Record t : Type := mk {
  verify_checksums : bool;
  fill_cache : bool;
  ignore_range_deletions : bool }.

Definition set_verify_checksums (v : bool) (o : t) : t :=
  mk v (fill_cache o) (ignore_range_deletions o).
Definition set_fill_cache (v : bool) (o : t) : t :=
  mk (verify_checksums o) v (ignore_range_deletions o).
Definition set_ignore_range_deletions (v : bool) (o : t) : t :=
  mk (verify_checksums o) (fill_cache o) v.
End ReadOptions.

Module OptimisticTransactionOptions.
(** The field of [rocksdb::OptimisticTransactionOptions] the bridge assigns. *)
Record t : Type := mk { set_snapshot : bool }.
Definition with_set_snapshot (v : bool) (o : t) : t := mk v.
End OptimisticTransactionOptions.

Module TransactionOptions.
(** The field of [rocksdb::TransactionOptions] the bridge assigns. *)
Record t : Type := mk { set_snapshot : bool }.
Definition with_set_snapshot (v : bool) (o : t) : t := mk v.
End TransactionOptions.

(** ** The engine interface

    What tx.h uses of RocksDB: the two store types, the transaction object
    and its member functions, the default-constructed option structs.  A
    transaction member function takes the engine-side state of the
    transaction and returns its result with the state afterwards; [Get] and
    [GetForUpdate] also take the output buffer and return what it holds
    afterwards. *)
Class Engine : Type := {
  OptimisticTransactionDB : Type;
  TransactionDB : Type;
  ColumnFamilyHandle : Type;
  WriteOptions : Type;
  Transaction : Type;

  (* default constructors: new WriteOptions, new ReadOptions, ... *)
  WriteOptions_new : WriteOptions;
  ReadOptions_new : ReadOptions.t;
  OptimisticTransactionOptions_new : OptimisticTransactionOptions.t;
  TransactionOptions_new : TransactionOptions.t;

  (* DB::DefaultColumnFamily, on either store seen as a DB *)
  ODB_DefaultColumnFamily : OptimisticTransactionDB -> ColumnFamilyHandle;
  TDB_DefaultColumnFamily : TransactionDB -> ColumnFamilyHandle;

  (* BeginTransaction of either store *)
  ODB_BeginTransaction :
    OptimisticTransactionDB -> WriteOptions ->
    OptimisticTransactionOptions.t -> Transaction;
  TDB_BeginTransaction :
    TransactionDB -> WriteOptions -> TransactionOptions.t -> Transaction;

  (* Transaction:: member functions *)
  Tx_SetSnapshot : Transaction -> Transaction;
  Tx_ClearSnapshot : Transaction -> Transaction;
  Tx_Get :
    ReadOptions.t -> Slice -> PinnableSlice -> Transaction ->
    Status * PinnableSlice * Transaction;
  Tx_GetForUpdate :
    ReadOptions.t -> ColumnFamilyHandle -> Slice -> PinnableSlice ->
    Transaction -> Status * PinnableSlice * Transaction;
  Tx_Put : Slice -> Slice -> Transaction -> Status * Transaction;
  Tx_Delete : Slice -> Transaction -> Status * Transaction;
  Tx_Commit : Transaction -> Status * Transaction;
  Tx_Rollback : Transaction -> Status * Transaction;
  Tx_RollbackToSavePoint : Transaction -> Status * Transaction;
  Tx_PopSavePoint : Transaction -> Status * Transaction;
  Tx_SetSavePoint : Transaction -> Transaction
}.

(** What running a member function comes to: it returns, or it is undefined
    ([Fatal]: a null pointer was dereferenced, a precondition was violated). *)
Inductive Outcome (A : Type) : Type :=
| Returns (a : A)
| Fatal.
Arguments Fatal {A}.

Section Bridge.

Context {E : Engine}.

(** [DB *]: either store pointer converted to its base class. *)
Inductive DB : Type :=
| DB_of_odb (o : OptimisticTransactionDB)
| DB_of_tdb (t : TransactionDB).

Definition DefaultColumnFamily (db : DB) : ColumnFamilyHandle :=
  match db with
  | DB_of_odb o => ODB_DefaultColumnFamily o
  | DB_of_tdb t => TDB_DefaultColumnFamily t
  end.

(** ** The handle *)

Record TxBridge : Type := mkTxBridge {
  odb : ptr OptimisticTransactionDB;
  tdb : ptr TransactionDB;
  tx : unique_ptr Transaction;
  w_opts : unique_ptr WriteOptions;
  r_opts : unique_ptr ReadOptions.t;
  o_tx_opts : unique_ptr OptimisticTransactionOptions.t;
  p_tx_opts : unique_ptr TransactionOptions.t }.

Definition with_tx (v : unique_ptr Transaction) (h : TxBridge) : TxBridge :=
  mkTxBridge (odb h) (tdb h) v (w_opts h) (r_opts h) (o_tx_opts h) (p_tx_opts h).
Definition with_w_opts (v : unique_ptr WriteOptions) (h : TxBridge) : TxBridge :=
  mkTxBridge (odb h) (tdb h) (tx h) v (r_opts h) (o_tx_opts h) (p_tx_opts h).
Definition with_r_opts (v : unique_ptr ReadOptions.t) (h : TxBridge) : TxBridge :=
  mkTxBridge (odb h) (tdb h) (tx h) (w_opts h) v (o_tx_opts h) (p_tx_opts h).
Definition with_o_tx_opts (v : unique_ptr OptimisticTransactionOptions.t)
  (h : TxBridge) : TxBridge :=
  mkTxBridge (odb h) (tdb h) (tx h) (w_opts h) (r_opts h) v (p_tx_opts h).
Definition with_p_tx_opts (v : unique_ptr TransactionOptions.t)
  (h : TxBridge) : TxBridge :=
  mkTxBridge (odb h) (tdb h) (tx h) (w_opts h) (r_opts h) (o_tx_opts h) v.

(** ** Constructors *)

(** [TxBridge(OptimisticTransactionDB *odb_)] *)
Definition TxBridge_optimistic (odb_ : ptr OptimisticTransactionDB) : TxBridge :=
  {| odb := odb_;
     tdb := nullptr;
     tx := nullptr;
     w_opts := make_unique WriteOptions_new;
     r_opts := make_unique
                 (ReadOptions.set_ignore_range_deletions true ReadOptions_new);
     o_tx_opts := make_unique OptimisticTransactionOptions_new;
     p_tx_opts := nullptr |}.

(** [TxBridge(TransactionDB *tdb_)] *)
Definition TxBridge_pessimistic (tdb_ : ptr TransactionDB) : TxBridge :=
  {| odb := nullptr;
     tdb := tdb_;
     tx := nullptr;
     w_opts := make_unique WriteOptions_new;
     r_opts := make_unique
                 (ReadOptions.set_ignore_range_deletions true ReadOptions_new);
     o_tx_opts := nullptr;
     p_tx_opts := make_unique TransactionOptions_new |}.

(** ** Calls into the engine

    The calls a member function makes on the engine, in order, with their
    arguments. *)
Inductive EngineCall : Type :=
| Call_BeginTransaction_o (db : OptimisticTransactionDB) (wo : WriteOptions)
    (o : OptimisticTransactionOptions.t)
| Call_BeginTransaction_p (db : TransactionDB) (wo : WriteOptions)
    (o : TransactionOptions.t)
| Call_SetSnapshot
| Call_ClearSnapshot
| Call_Get (ro : ReadOptions.t) (key : Slice)
| Call_GetForUpdate (ro : ReadOptions.t) (cf : ColumnFamilyHandle) (key : Slice)
| Call_Put (key value : Slice)
| Call_Delete (key : Slice)
| Call_Commit
| Call_Rollback
| Call_RollbackToSavePoint
| Call_PopSavePoint
| Call_SetSavePoint.

(** The write options a call hands to the engine, if it hands over any. *)
Definition call_write_options (c : EngineCall) : option WriteOptions :=
  match c with
  | Call_BeginTransaction_o _ wo _ => Some wo
  | Call_BeginTransaction_p _ wo _ => Some wo
  | _ => None
  end.

(** ** The monad of member functions

    A member function runs on the handle and either is undefined or returns
    a value, the handle afterwards and the engine calls it made. *)

Definition M (A : Type) : Type :=
  TxBridge -> Outcome (A * TxBridge * list EngineCall).

Definition pure {A : Type} (a : A) : M A :=
  fun h => Returns (a, h, []).

Definition bind {A B : Type} (m : M A) (k : A -> M B) : M B :=
  fun h =>
    match m h with
    | Fatal => Fatal
    | Returns (a, h1, c1) =>
        match k a h1 with
        | Fatal => Fatal
        | Returns (b, h2, c2) => Returns (b, h2, c1 ++ c2)
        end
    end.

(** [*p] for a pointer field [p] of the handle. *)
Definition deref {A : Type} (p : TxBridge -> option A) : M A :=
  fun h => match p h with Some a => Returns (a, h, []) | None => Fatal end.

(** Assignment to a field of the handle. *)
Definition modify (f : TxBridge -> TxBridge) : M unit :=
  fun h => Returns (tt, f h, []).

(** [tx->f(...)]: the member function [f] runs on the live transaction and
    the call is recorded. *)
Definition on_tx {A : Type} (c : EngineCall)
  (f : Transaction -> A * Transaction) : M A :=
  fun h =>
    match tx h with
    | None => Fatal
    | Some t => let (a, t') := f t in Returns (a, with_tx (Some t') h, [c])
    end.

End Bridge.

Declare Scope bridge_scope.
Delimit Scope bridge_scope with bridge.
Notation "x <- m ;; k" := (bind m (fun x => k))
  (at level 61, m at next level, right associativity) : bridge_scope.
Open Scope bridge_scope.

(** ** Member functions of [TxBridge] *)

Section Members.

Context {E : Engine}.

(** The transaction member functions as the bridge calls them. *)
Definition tx_SetSnapshot : M unit :=
  on_tx Call_SetSnapshot (fun t => (tt, Tx_SetSnapshot t)).
Definition tx_ClearSnapshot : M unit :=
  on_tx Call_ClearSnapshot (fun t => (tt, Tx_ClearSnapshot t)).
Definition tx_Get (ro : ReadOptions.t) (key : Slice) (buf : PinnableSlice)
  : M (Status * PinnableSlice) :=
  on_tx (Call_Get ro key) (Tx_Get ro key buf).
Definition tx_GetForUpdate (ro : ReadOptions.t) (cf : ColumnFamilyHandle)
  (key : Slice) (buf : PinnableSlice) : M (Status * PinnableSlice) :=
  on_tx (Call_GetForUpdate ro cf key) (Tx_GetForUpdate ro cf key buf).
Definition tx_Put (key value : Slice) : M Status :=
  on_tx (Call_Put key value) (Tx_Put key value).
Definition tx_Delete (key : Slice) : M Status :=
  on_tx (Call_Delete key) (Tx_Delete key).
Definition tx_Commit : M Status := on_tx Call_Commit Tx_Commit.
Definition tx_Rollback : M Status := on_tx Call_Rollback Tx_Rollback.
Definition tx_RollbackToSavePoint : M Status :=
  on_tx Call_RollbackToSavePoint Tx_RollbackToSavePoint.
Definition tx_PopSavePoint : M Status :=
  on_tx Call_PopSavePoint Tx_PopSavePoint.
Definition tx_SetSavePoint : M unit :=
  on_tx Call_SetSavePoint (fun t => (tt, Tx_SetSavePoint t)).

(** [get_w_opts] returns a reference to [*w_opts]. *)
Definition get_w_opts : M WriteOptions := deref w_opts.

(** An assignment by the caller through the reference [get_w_opts] returns. *)
Definition assign_w_opts (wo : WriteOptions) : M unit :=
  _ <- get_w_opts ;; modify (with_w_opts (Some wo)).

(** Modelled from the spec: the constructor of [IterBridge] (iter.h, not
    among the sources), an iteration handle bound to the transaction: it is
    given the address [&*tx], so the iterator refers to the handle's
    transaction, which stays where it is, and making it calls nothing on the
    engine. *)
Inductive IterBridge : Type := IterBridge_on_tx.

Definition iterator : M (unique_ptr IterBridge) :=
  _ <- deref tx ;; pure (make_unique IterBridge_on_tx).

Definition verify_checksums (val : bool) : M unit :=
  ro <- deref r_opts ;;
  modify (with_r_opts (Some (ReadOptions.set_verify_checksums val ro))).

Definition fill_cache (val : bool) : M unit :=
  ro <- deref r_opts ;;
  modify (with_r_opts (Some (ReadOptions.set_fill_cache val ro))).

Definition set_snapshot (val : bool) : M unit :=
  fun h =>
    if negb (is_null (tx h)) then
      if val then tx_SetSnapshot h else pure tt h
    else if negb (is_null (o_tx_opts h)) then
      (o <- deref o_tx_opts ;;
       modify (with_o_tx_opts
                 (Some (OptimisticTransactionOptions.with_set_snapshot val o)))) h
    else if negb (is_null (p_tx_opts h)) then
      (o <- deref p_tx_opts ;;
       modify (with_p_tx_opts
                 (Some (TransactionOptions.with_set_snapshot val o)))) h
    else pure tt h.

Definition clear_snapshot : M unit := tx_ClearSnapshot.

Definition get_db (h : TxBridge) : ptr DB :=
  if negb (is_null (tdb h)) then option_map DB_of_tdb (tdb h)
  else option_map DB_of_odb (odb h).

(** Modelled from the spec: [start], which tx.h declares and tx.cpp, not
    among the sources, defines.  It creates the owned transaction from the
    backing store, passing the write-options and the mode-specific
    transaction-options; with no backing store there is nothing to create
    it from. *)
Definition start : M unit :=
  fun h =>
    match get_db h with
    | Some (DB_of_odb o) =>
        (wo <- deref w_opts ;;
         oo <- deref o_tx_opts ;;
         fun h' => Returns (tt, with_tx (Some (ODB_BeginTransaction o wo oo)) h',
                            [Call_BeginTransaction_o o wo oo])) h
    | Some (DB_of_tdb t) =>
        (wo <- deref w_opts ;;
         po <- deref p_tx_opts ;;
         fun h' => Returns (tt, with_tx (Some (TDB_BeginTransaction t wo po)) h',
                            [Call_BeginTransaction_p t wo po])) h
    | None => Fatal
    end.

(** The engine writes the value through [&*ret]: the pointer keeps its
    nullity, the pointee is replaced. *)
Definition stored {A : Type} (p : unique_ptr A) (a : A) : unique_ptr A :=
  option_map (fun _ => a) p.

Definition get (key : RustBytes) (for_update : bool) (status : RdbStatus)
  : M (unique_ptr PinnableSlice * RdbStatus) :=
  let key_ := convert_slice key in
  let ret := make_unique PinnableSlice_new in
  if for_update then
    ro <- deref r_opts ;;
    db <- deref get_db ;;
    buf <- deref (fun _ => ret) ;;
    r <- tx_GetForUpdate ro (DefaultColumnFamily db) key_ buf ;;
    pure (stored ret (snd r), write_status (fst r) status)
  else
    ro <- deref r_opts ;;
    buf <- deref (fun _ => ret) ;;
    r <- tx_Get ro key_ buf ;;
    pure (stored ret (snd r), write_status (fst r) status).

Definition put (key val : RustBytes) (status : RdbStatus) : M RdbStatus :=
  s <- tx_Put (convert_slice key) (convert_slice val) ;;
  pure (write_status s status).

Definition del (key : RustBytes) (status : RdbStatus) : M RdbStatus :=
  s <- tx_Delete (convert_slice key) ;;
  pure (write_status s status).

Definition commit (status : RdbStatus) : M RdbStatus :=
  s <- tx_Commit ;; pure (write_status s status).

Definition rollback (status : RdbStatus) : M RdbStatus :=
  s <- tx_Rollback ;; pure (write_status s status).

Definition rollback_to_savepoint (status : RdbStatus) : M RdbStatus :=
  s <- tx_RollbackToSavePoint ;; pure (write_status s status).

Definition pop_savepoint (status : RdbStatus) : M RdbStatus :=
  s <- tx_PopSavePoint ;; pure (write_status s status).

Definition set_savepoint : M unit := tx_SetSavePoint.

End Members.

(** ** The life of a handle

    A handle is made by one of the two constructors and then used through
    its member functions, in any order and with any arguments.  A run stops
    being defined at the first undefined call. *)

Section Lifecycle.

Context {E : Engine}.

Inductive Op : Type :=
| OpAssignWOpts (wo : WriteOptions)
| OpVerifyChecksums (val : bool)
| OpFillCache (val : bool)
| OpIterator
| OpSetSnapshot (val : bool)
| OpClearSnapshot
| OpStart
| OpGet (key : RustBytes) (for_update : bool) (status : RdbStatus)
| OpPut (key val : RustBytes) (status : RdbStatus)
| OpDel (key : RustBytes) (status : RdbStatus)
| OpCommit (status : RdbStatus)
| OpRollback (status : RdbStatus)
| OpRollbackToSavepoint (status : RdbStatus)
| OpPopSavepoint (status : RdbStatus)
| OpSetSavepoint.

Definition is_start (op : Op) : bool :=
  match op with OpStart => true | _ => false end.

(** The handle a member function leaves behind. *)
Definition after {A : Type} (m : M A) (h : TxBridge) : Outcome TxBridge :=
  match m h with
  | Returns (_, h', _) => Returns h'
  | Fatal => Fatal
  end.

Definition exec (op : Op) : TxBridge -> Outcome TxBridge :=
  match op with
  | OpAssignWOpts wo => after (assign_w_opts wo)
  | OpVerifyChecksums val => after (verify_checksums val)
  | OpFillCache val => after (fill_cache val)
  | OpIterator => after iterator
  | OpSetSnapshot val => after (set_snapshot val)
  | OpClearSnapshot => after clear_snapshot
  | OpStart => after start
  | OpGet key for_update status => after (get key for_update status)
  | OpPut key val status => after (put key val status)
  | OpDel key status => after (del key status)
  | OpCommit status => after (commit status)
  | OpRollback status => after (rollback status)
  | OpRollbackToSavepoint status => after (rollback_to_savepoint status)
  | OpPopSavepoint status => after (pop_savepoint status)
  | OpSetSavepoint => after set_savepoint
  end.

Fixpoint run (ops : list Op) (h : TxBridge) : Outcome TxBridge :=
  match ops with
  | [] => Returns h
  | op :: rest =>
      match exec op h with
      | Returns h' => run rest h'
      | Fatal => Fatal
      end
  end.

(** A handle as a constructor leaves it. *)
Definition constructed (h : TxBridge) : Prop :=
  (exists odb_, h = TxBridge_optimistic odb_) \/
  (exists tdb_, h = TxBridge_pessimistic tdb_).

(** A handle in a state that a constructor and member functions lead to. *)
Definition reachable (h : TxBridge) : Prop :=
  exists h0 ops, constructed h0 /\ run ops h0 = Returns h.

(** A transaction is active: [tx != nullptr]. *)
Definition active (h : TxBridge) : Prop := tx h <> None.

End Lifecycle.

(** ** What is stated of handles and calls *)

Section Vocabulary.

Context {E : Engine}.

(** The read options are present and ignore range deletions. *)
Definition ignores_range_deletions (h : TxBridge) : Prop :=
  exists ro, r_opts h = Some ro /\ ReadOptions.ignore_range_deletions ro = true.

(** A live transaction comes with the store it was begun on. *)
Definition bound_when_active (h : TxBridge) : Prop :=
  active h -> get_db h <> None.

(** What holds of every reachable handle. *)
Record well_formed (h : TxBridge) : Prop := {
  wf_r_opts : ignores_range_deletions h;
  wf_w_opts : w_opts h <> None;
  wf_bound : bound_when_active h }.

End Vocabulary.

(** A member function relays one engine call: whatever the sink held, it
    comes back holding the code and the message of the status the call [c],
    run as [f] on the live transaction [t], returned; the call is made once;
    the transaction is left as the call left it. *)
Definition relays {E : Engine} (m : RdbStatus -> M RdbStatus) (c : EngineCall)
  (f : Transaction -> Status * Transaction) (h : TxBridge) (t : Transaction)
  : Prop :=
  forall status : RdbStatus,
    m status h =
    Returns (mkRdbStatus (code (fst (f t))) (message (fst (f t))),
             with_tx (Some (snd (f t))) h,
             [c]).

(** What a call does to the engine and reports: the value returned, the
    transaction afterwards, the engine calls made. *)
Definition engine_effect {E : Engine} (A : Type)
  (o : Outcome (A * TxBridge * list EngineCall))
  : Outcome (A * unique_ptr Transaction * list EngineCall) :=
  match o with
  | Returns (a, h', calls) => Returns (a, tx h', calls)
  | Fatal => Fatal
  end.

(** A member function applies the handle's write options when it returns
    and one of its engine calls hands the engine the write options the
    handle holds at the call. *)
Definition applies_write_options {E : Engine} (A : Type) (m : M A)
  (h : TxBridge) : Prop :=
  exists r h' calls wo,
    m h = Returns (r, h', calls) /\
    w_opts h = Some wo /\
    Exists (fun c => call_write_options c = Some wo) calls.

Section OwnWritesContract.

Context {E : Engine}.

(** The transactions of the store [db]: begun on it, and driven since then
    through the member functions of [Transaction], a read for update being
    on the default column family of [db]. *)
Inductive tx_of (db : DB) : Transaction -> Prop :=
| tx_of_begin_o (o : OptimisticTransactionDB) wo oo :
    db = DB_of_odb o -> tx_of db (ODB_BeginTransaction o wo oo)
| tx_of_begin_p (p : TransactionDB) wo po :
    db = DB_of_tdb p -> tx_of db (TDB_BeginTransaction p wo po)
| tx_of_SetSnapshot t : tx_of db t -> tx_of db (Tx_SetSnapshot t)
| tx_of_ClearSnapshot t : tx_of db t -> tx_of db (Tx_ClearSnapshot t)
| tx_of_Get t ro key buf :
    tx_of db t -> tx_of db (snd (Tx_Get ro key buf t))
| tx_of_GetForUpdate t ro key buf :
    tx_of db t ->
    tx_of db (snd (Tx_GetForUpdate ro (DefaultColumnFamily db) key buf t))
| tx_of_Put t key value : tx_of db t -> tx_of db (snd (Tx_Put key value t))
| tx_of_Delete t key : tx_of db t -> tx_of db (snd (Tx_Delete key t))
| tx_of_Commit t : tx_of db t -> tx_of db (snd (Tx_Commit t))
| tx_of_Rollback t : tx_of db t -> tx_of db (snd (Tx_Rollback t))
| tx_of_RollbackToSavePoint t :
    tx_of db t -> tx_of db (snd (Tx_RollbackToSavePoint t))
| tx_of_PopSavePoint t : tx_of db t -> tx_of db (snd (Tx_PopSavePoint t))
| tx_of_SetSavePoint t : tx_of db t -> tx_of db (Tx_SetSavePoint t).

(** The transaction shows [value] at [key]: a plain read and a read for
    update on the default column family of [db], made the way the bridge
    makes them (a new buffer, read options that ignore range deletions),
    both succeed and leave [value] in the buffer. *)
Definition shows (db : DB) (t : Transaction) (key value : Slice) : Prop :=
  forall ro,
    ReadOptions.ignore_range_deletions ro = true ->
    (code (fst (fst (Tx_Get ro key PinnableSlice_new t))) = kOk /\
     snd (fst (Tx_Get ro key PinnableSlice_new t)) = value) /\
    (code (fst (fst (Tx_GetForUpdate ro (DefaultColumnFamily db) key
                       PinnableSlice_new t))) = kOk /\
     snd (fst (Tx_GetForUpdate ro (DefaultColumnFamily db) key
                 PinnableSlice_new t)) = value).

(** The transaction a handle holds is one of its store. *)
Definition holds_tx_of_store (h : TxBridge) : Prop :=
  forall t db, tx h = Some t -> get_db h = Some db -> tx_of db t.

End OwnWritesContract.

(** Modelled from the spec: what the engine's transaction primitives
    (RocksDB, not among the sources) promise of a transaction's own writes.
    A write is buffered inside the transaction and visible to subsequent
    reads on the same transaction: in a transaction of a store a [Put] that
    succeeds shows its value at its key, and what is shown is changed
    neither by a read, nor by a write or a deletion at another key, nor by
    setting or popping a savepoint (a marker; popping does not undo buffered
    state), nor by attaching or detaching a snapshot. *)
Record reads_own_writes (E : Engine) : Prop := {
  put_shows :
    forall db (t : Transaction) (key value : Slice),
      tx_of db t ->
      code (fst (Tx_Put key value t)) = kOk ->
      shows db (snd (Tx_Put key value t)) key value;
  get_keeps :
    forall db (t : Transaction) (key value : Slice) ro k,
      tx_of db t -> ReadOptions.ignore_range_deletions ro = true ->
      shows db t key value ->
      shows db (snd (Tx_Get ro k PinnableSlice_new t)) key value;
  get_for_update_keeps :
    forall db (t : Transaction) (key value : Slice) ro k,
      tx_of db t -> ReadOptions.ignore_range_deletions ro = true ->
      shows db t key value ->
      shows db (snd (Tx_GetForUpdate ro (DefaultColumnFamily db) k
                       PinnableSlice_new t)) key value;
  put_elsewhere_keeps :
    forall db (t : Transaction) (key value k v : Slice),
      tx_of db t -> k <> key -> shows db t key value ->
      shows db (snd (Tx_Put k v t)) key value;
  delete_elsewhere_keeps :
    forall db (t : Transaction) (key value k : Slice),
      tx_of db t -> k <> key -> shows db t key value ->
      shows db (snd (Tx_Delete k t)) key value;
  set_savepoint_keeps :
    forall db (t : Transaction) (key value : Slice),
      tx_of db t -> shows db t key value ->
      shows db (Tx_SetSavePoint t) key value;
  pop_savepoint_keeps :
    forall db (t : Transaction) (key value : Slice),
      tx_of db t -> shows db t key value ->
      shows db (snd (Tx_PopSavePoint t)) key value;
  set_snapshot_keeps :
    forall db (t : Transaction) (key value : Slice),
      tx_of db t -> shows db t key value ->
      shows db (Tx_SetSnapshot t) key value;
  clear_snapshot_keeps :
    forall db (t : Transaction) (key value : Slice),
      tx_of db t -> shows db t key value ->
      shows db (Tx_ClearSnapshot t) key value }.

(** A call that is no write to [key] and leaves the transaction and its
    buffered writes in place: a read, a write or a deletion at another key,
    a change of the read or write options, a new iterator, a snapshot being
    attached or detached, a savepoint being set or popped.  Left out are
    [start], which replaces the transaction, [commit] and [rollback], which
    end it, and [rollback_to_savepoint], which discards buffered writes. *)
Definition leaves_key {E : Engine} (key : RustBytes) (op : Op) : Prop :=
  match op with
  | OpGet _ _ _ => True
  | OpPut k _ _ => convert_slice k <> convert_slice key
  | OpDel k _ => convert_slice k <> convert_slice key
  | OpAssignWOpts _ => True
  | OpVerifyChecksums _ => True
  | OpFillCache _ => True
  | OpIterator => True
  | OpSetSnapshot _ => True
  | OpClearSnapshot => True
  | OpSetSavepoint => True
  | OpPopSavepoint _ => True
  | OpStart => False
  | OpCommit _ => False
  | OpRollback _ => False
  | OpRollbackToSavepoint _ => False
  end.

(** ** A reference engine

    Modelled from the spec: the engine behind the interface (RocksDB, which
    is not among the sources), as far as the spec describes its primitives.
    A transaction buffers its writes over the committed content of the store
    it was begun on; a read sees the buffer first; in a pessimistic
    transaction a write, a deletion or a read for update fails with a
    conflict on a key another transaction holds; savepoints are a stack of
    saved buffers.  The bridge is run on it to exercise the
    theorems on concrete handles. *)

Module Ref.

Fixpoint bytes_eqb (a b : bytes) : bool :=
  match a, b with
  | [], [] => true
  | x :: a', y :: b' => Byte.eqb x y && bytes_eqb a' b'
  | _, _ => false
  end.

Fixpoint assoc {V : Type} (k : bytes) (l : list (bytes * V)) : option V :=
  match l with
  | [] => None
  | (k', v) :: rest => if bytes_eqb k k' then Some v else assoc k rest
  end.

Definition held (k : bytes) (l : list bytes) : bool :=
  existsb (bytes_eqb k) l.

Record Store : Type := mkStore {
  data : list (bytes * bytes);
  foreign_locks : list bytes }.

Record WriteOpts : Type := mkWriteOpts { sync : bool; disableWAL : bool }.

(** A buffered write: a value, or a deletion marker. *)
Definition Batch := list (bytes * option bytes).

Record Txn : Type := mkTxn {
  base : list (bytes * bytes);
  batch : Batch;
  savepoints : list Batch;
  snapshot : bool;
  locked_by_others : list bytes;
  begun_with : WriteOpts }.

Definition with_batch (b : Batch) (t : Txn) : Txn :=
  mkTxn (base t) b (savepoints t) (snapshot t) (locked_by_others t)
    (begun_with t).
Definition with_savepoints (s : list Batch) (t : Txn) : Txn :=
  mkTxn (base t) (batch t) s (snapshot t) (locked_by_others t) (begun_with t).
Definition with_snapshot (s : bool) (t : Txn) : Txn :=
  mkTxn (base t) (batch t) (savepoints t) s (locked_by_others t)
    (begun_with t).

Definition OK : Status := mkStatus kOk EmptyString.
Definition NotFound : Status := mkStatus kNotFound "NotFound: ".
Definition Busy : Status := mkStatus kConflict "Resource busy: ".
Definition NoSavePoint : Status := mkStatus kError "NotFound: no savepoint".

(** What the transaction sees at a key: its own buffer, then the store. *)
Definition view (t : Txn) (k : bytes) : option bytes :=
  match assoc k (batch t) with
  | Some w => w
  | None => assoc k (base t)
  end.

Definition Get (ro : ReadOptions.t) (key : Slice) (buf : PinnableSlice)
  (t : Txn) : Status * PinnableSlice * Txn :=
  match view t key with
  | Some v => (OK, v, t)
  | None => (NotFound, buf, t)
  end.

Definition GetForUpdate (ro : ReadOptions.t) (cf : string) (key : Slice)
  (buf : PinnableSlice) (t : Txn) : Status * PinnableSlice * Txn :=
  if held key (locked_by_others t) then (Busy, buf, t) else Get ro key buf t.

Definition Put (key value : Slice) (t : Txn) : Status * Txn :=
  if held key (locked_by_others t) then (Busy, t)
  else (OK, with_batch ((key, Some value) :: batch t) t).

Definition Delete (key : Slice) (t : Txn) : Status * Txn :=
  if held key (locked_by_others t) then (Busy, t)
  else (OK, with_batch ((key, None) :: batch t) t).

Definition remove_key (k : bytes) (d : list (bytes * bytes))
  : list (bytes * bytes) :=
  filter (fun kv => negb (bytes_eqb k (fst kv))) d.

Definition apply_write (w : bytes * option bytes) (d : list (bytes * bytes))
  : list (bytes * bytes) :=
  match snd w with
  | Some v => (fst w, v) :: remove_key (fst w) d
  | None => remove_key (fst w) d
  end.

(** The buffer is newest first: the oldest write is applied first. *)
Definition apply_batch (b : Batch) (d : list (bytes * bytes))
  : list (bytes * bytes) :=
  fold_right apply_write d b.

Definition Commit (t : Txn) : Status * Txn :=
  (OK, mkTxn (apply_batch (batch t) (base t)) [] [] false
         (locked_by_others t) (begun_with t)).

Definition Rollback (t : Txn) : Status * Txn :=
  (OK, with_savepoints [] (with_batch [] t)).

Definition SetSavePoint (t : Txn) : Txn :=
  with_savepoints (batch t :: savepoints t) t.

Definition RollbackToSavePoint (t : Txn) : Status * Txn :=
  match savepoints t with
  | [] => (NoSavePoint, t)
  | b :: rest => (OK, with_savepoints rest (with_batch b t))
  end.

Definition PopSavePoint (t : Txn) : Status * Txn :=
  match savepoints t with
  | [] => (NoSavePoint, t)
  | _ :: rest => (OK, with_savepoints rest t)
  end.

Definition Begin (s : Store) (locks : list bytes) (wo : WriteOpts)
  (snap : bool) : Txn :=
  mkTxn (data s) [] [] snap locks wo.

#[export] Instance engine : Engine := {|
  OptimisticTransactionDB := Store;
  TransactionDB := Store;
  ColumnFamilyHandle := string;
  WriteOptions := WriteOpts;
  Transaction := Txn;
  WriteOptions_new := mkWriteOpts false false;
  ReadOptions_new := ReadOptions.mk true true false;
  OptimisticTransactionOptions_new := OptimisticTransactionOptions.mk false;
  TransactionOptions_new := TransactionOptions.mk false;
  ODB_DefaultColumnFamily := fun _ => "default"%string;
  TDB_DefaultColumnFamily := fun _ => "default"%string;
  ODB_BeginTransaction := fun s wo o =>
    Begin s [] wo (OptimisticTransactionOptions.set_snapshot o);
  TDB_BeginTransaction := fun s wo o =>
    Begin s (foreign_locks s) wo (TransactionOptions.set_snapshot o);
  Tx_SetSnapshot := with_snapshot true;
  Tx_ClearSnapshot := with_snapshot false;
  Tx_Get := Get;
  Tx_GetForUpdate := GetForUpdate;
  Tx_Put := Put;
  Tx_Delete := Delete;
  Tx_Commit := Commit;
  Tx_Rollback := Rollback;
  Tx_RollbackToSavePoint := RollbackToSavePoint;
  Tx_PopSavePoint := PopSavePoint;
  Tx_SetSavePoint := SetSavePoint
|}.

End Ref.

(** ** Concrete handles on the reference engine *)

Definition b (s : string) : bytes := list_byte_of_string s.

Definition sink0 : RdbStatus := mkRdbStatus kError "stale".

(** A store holding ["k" -> "old"]; another transaction holds ["busy"]. *)
Definition demo_store : Ref.Store :=
  Ref.mkStore [(b "k", b "old")] [b "busy"].

(** Write options of the reference engine, as the handle sees them. *)
Definition demo_w_opts (sync disableWAL : bool) : @WriteOptions Ref.engine :=
  Ref.mkWriteOpts sync disableWAL.

Definition demo_optimistic : TxBridge :=
  TxBridge_optimistic (E := Ref.engine) (Some demo_store).
Definition demo_pessimistic : TxBridge :=
  TxBridge_pessimistic (E := Ref.engine) (Some demo_store).

(** The transactions [start] begins on them. *)
Definition demo_optimistic_tx : @Transaction Ref.engine :=
  Ref.Begin demo_store [] (demo_w_opts false false) false.
Definition demo_pessimistic_tx : @Transaction Ref.engine :=
  Ref.Begin demo_store [b "busy"] (demo_w_opts false false) false.

(** The handles after [start]. *)
Definition demo_optimistic_started : TxBridge :=
  with_tx (Some demo_optimistic_tx) demo_optimistic.
Definition demo_pessimistic_started : TxBridge :=
  with_tx (Some demo_pessimistic_tx) demo_pessimistic.

(** A handle that was reconfigured, started, written and read. *)
Definition demo_busy_ops : list Op :=
  [OpVerifyChecksums false; OpFillCache false; OpSetSnapshot true;
   OpAssignWOpts (demo_w_opts true false); OpStart; OpSetSnapshot true;
   OpIterator;
   OpSetSavepoint; OpPut (b "a") (b "1") sink0; OpGet (b "a") true sink0;
   OpDel (b "k") sink0; OpRollbackToSavepoint sink0; OpPopSavepoint sink0;
   OpClearSnapshot; OpCommit sink0; OpRollback sink0].

Definition demo_busy : TxBridge :=
  match run demo_busy_ops demo_pessimistic with
  | Returns h => h
  | Fatal => demo_pessimistic
  end.

(** ** Calls and their traces *)

Section Traces.

Context {E : Engine}.

(** The handle a member function leaves behind and the engine calls it
    made. *)
Definition traced {A : Type} (m : M A) (h : TxBridge)
  : Outcome (TxBridge * list EngineCall) :=
  match m h with
  | Returns (_, h', calls) => Returns (h', calls)
  | Fatal => Fatal
  end.

Definition exec_trace (op : Op)
  : TxBridge -> Outcome (TxBridge * list EngineCall) :=
  match op with
  | OpAssignWOpts wo => traced (assign_w_opts wo)
  | OpVerifyChecksums val => traced (verify_checksums val)
  | OpFillCache val => traced (fill_cache val)
  | OpIterator => traced iterator
  | OpSetSnapshot val => traced (set_snapshot val)
  | OpClearSnapshot => traced clear_snapshot
  | OpStart => traced start
  | OpGet key for_update status => traced (get key for_update status)
  | OpPut key val status => traced (put key val status)
  | OpDel key status => traced (del key status)
  | OpCommit status => traced (commit status)
  | OpRollback status => traced (rollback status)
  | OpRollbackToSavepoint status => traced (rollback_to_savepoint status)
  | OpPopSavepoint status => traced (pop_savepoint status)
  | OpSetSavepoint => traced set_savepoint
  end.

(** The engine calls of a run of member functions, in the order made. *)
Fixpoint run_trace (ops : list Op) (h : TxBridge)
  : Outcome (TxBridge * list EngineCall) :=
  match ops with
  | [] => Returns (h, [])
  | op :: rest =>
      match exec_trace op h with
      | Returns (h1, c1) =>
          match run_trace rest h1 with
          | Returns (h2, c2) => Returns (h2, c1 ++ c2)
          | Fatal => Fatal
          end
      | Fatal => Fatal
      end
  end.

(** The member functions that dereference [tx] whatever their arguments. *)
Definition needs_tx (op : Op) : bool :=
  match op with
  | OpAssignWOpts _ | OpVerifyChecksums _ | OpFillCache _
  | OpSetSnapshot _ | OpStart => false
  | _ => true
  end.

(** The member functions that call the engine when a transaction is live:
    all that dereference [tx] but [iterator], which only takes its address,
    and [set_snapshot] when its flag is set. *)
Definition calls_engine (op : Op) : bool :=
  match op with
  | OpSetSnapshot val => val
  | OpIterator => false
  | _ => needs_tx op
  end.

(** The read options a call hands to the engine, if it hands over any. *)
Definition call_read_options (c : EngineCall) : option ReadOptions.t :=
  match c with
  | Call_Get ro _ => Some ro
  | Call_GetForUpdate ro _ _ => Some ro
  | _ => None
  end.

(** A call that reads does so with range deletions ignored. *)
Definition reads_ignoring_range_deletions (c : EngineCall) : Prop :=
  forall ro, call_read_options c = Some ro ->
             ReadOptions.ignore_range_deletions ro = true.

(** The transaction options put in place of what the handle holds. *)
Definition with_tx_opts (oo : unique_ptr OptimisticTransactionOptions.t)
  (po : unique_ptr TransactionOptions.t) (h : TxBridge) : TxBridge :=
  with_o_tx_opts oo (with_p_tx_opts po h).

(** A member function neither reads nor writes the transaction options:
    run on the handle with other options in their place, it returns the same
    value, makes the same engine calls and leaves the same handle but for
    those options, which are still the ones put in place. *)
Definition unaffected_by_tx_options {A : Type} (m : M A) (h : TxBridge)
  : Prop :=
  forall (oo : unique_ptr OptimisticTransactionOptions.t)
         (po : unique_ptr TransactionOptions.t),
    m (with_tx_opts oo po h) =
    match m h with
    | Returns (a, h', calls) => Returns (a, with_tx_opts oo po h', calls)
    | Fatal => Fatal
    end.

End Traces.

(** ** Proof automation for member functions *)

Ltac unfold_members :=
  unfold exec, after, assign_w_opts, get_w_opts, iterator, verify_checksums,
    fill_cache,
    set_snapshot, clear_snapshot, start, get, put, del, commit, rollback,
    rollback_to_savepoint, pop_savepoint, set_savepoint,
    tx_SetSnapshot, tx_ClearSnapshot, tx_Get, tx_GetForUpdate, tx_Put,
    tx_Delete, tx_Commit, tx_Rollback, tx_RollbackToSavePoint,
    tx_PopSavePoint, tx_SetSavePoint,
    bind, pure, deref, modify, on_tx, stored, make_unique, nullptr in *.

Ltac case_scrutinee :=
  match goal with
  | H : context [match ?x with _ => _ end] |- _ =>
      lazymatch x with
      | context [match _ with _ => _ end] => fail
      | _ => destruct x eqn:?
      end
  | H : context [if ?x then _ else _] |- _ =>
      lazymatch x with
      | context [if _ then _ else _] => fail
      | _ => destruct x eqn:?
      end
  end.

Ltac member_inv :=
  unfold_members; cbn in *;
  repeat (first
    [ discriminate
    | match goal with
      | H : Returns _ = Returns _ |- _ => inversion H; clear H; subst
      | H : Some _ = Some _ |- _ => inversion H; clear H; subst
      | H : (_, _) = (_, _) |- _ => inversion H; clear H; subst
      end
    | case_scrutinee ];
    cbn in *).

Ltac trace_inv := unfold exec_trace, traced in *; member_inv.

Ltac name_engine_result :=
  match goal with
  | Heq : ?call = (_, ?t') |- context [?t'] =>
      is_var t'; replace t' with (snd call) by (rewrite Heq; reflexivity)
  end.

Ltac case_goal :=
  match goal with
  | |- context [match ?x with _ => _ end] =>
      lazymatch x with
      | context [match _ with _ => _ end] => fail
      | _ => destruct x eqn:?
      end
  end.

(** * Lemmas and theorems *)

Section Invariants.

Context {E : Engine}.

Lemma run_app (ops1 ops2 : list Op) (h : TxBridge) :
  run (ops1 ++ ops2) h =
  match run ops1 h with Returns h' => run ops2 h' | Fatal => Fatal end.
Proof.
  revert h; induction ops1 as [|op ops1 IH]; intro h; cbn.
  - reflexivity.
  - destruct (exec op h); [apply IH | reflexivity].
Qed.

(** One more call keeps a handle reachable. *)
Lemma reachable_step (op : Op) (h h' : TxBridge) :
  reachable h -> exec op h = Returns h' -> reachable h'.
Proof.
  intros (h0 & ops & Hc & Hr) Hop.
  exists h0, (ops ++ [op]); split; [exact Hc|].
  rewrite run_app, Hr; cbn; rewrite Hop; reflexivity.
Qed.

(** Induction over the calls that led to a reachable handle. *)
Lemma reachable_ind' (P : TxBridge -> Prop) :
  (forall h, constructed h -> P h) ->
  (forall op h h', reachable h -> P h -> exec op h = Returns h' -> P h') ->
  forall h, reachable h -> P h.
Proof.
  intros Hbase Hstep h (h0 & ops & Hc & Hr).
  revert h Hr.
  induction ops as [|op ops IH] using rev_ind; intros h Hr.
  - cbn in Hr; inversion Hr; subst; auto.
  - rewrite run_app in Hr.
    destruct (run ops h0) as [h1|] eqn:H1; [|discriminate].
    cbn in Hr. destruct (exec op h1) as [h2|] eqn:H2; [|discriminate].
    inversion Hr; subst.
    apply (Hstep op h1 h); auto.
    exists h0, ops; auto.
Qed.

(** No member function assigns the store pointers. *)
Lemma exec_stores (op : Op) (h h' : TxBridge) :
  exec op h = Returns h' -> odb h' = odb h /\ tdb h' = tdb h.
Proof.
  intro H; destruct h; destruct op; member_inv; auto.
Qed.

Lemma exec_get_db (op : Op) (h h' : TxBridge) :
  exec op h = Returns h' -> get_db h' = get_db h.
Proof.
  intro H; apply exec_stores in H as [Ho Ht].
  unfold get_db; rewrite Ho, Ht; reflexivity.
Qed.

Lemma constructed_ignores_range_deletions (h : TxBridge) :
  constructed h -> ignores_range_deletions h.
Proof.
  intros [[p ->] | [p ->]]; cbn; eexists; split; reflexivity.
Qed.

Lemma exec_ignores_range_deletions (op : Op) (h h' : TxBridge) :
  ignores_range_deletions h -> exec op h = Returns h' ->
  ignores_range_deletions h'.
Proof.
  intros (ro & Hro & Hird) H; unfold ignores_range_deletions.
  destruct h; cbn in Hro; subst; destruct op; member_inv; eauto.
Qed.

(** Which of the owned option structs are present never changes. *)
Lemma exec_presence (op : Op) (h h' : TxBridge) :
  exec op h = Returns h' ->
  is_null (w_opts h') = is_null (w_opts h) /\
  is_null (r_opts h') = is_null (r_opts h) /\
  is_null (o_tx_opts h') = is_null (o_tx_opts h) /\
  is_null (p_tx_opts h') = is_null (p_tx_opts h).
Proof.
  intro H; destruct h; destruct op; member_inv; auto.
Qed.

Lemma run_presence (ops : list Op) (h h' : TxBridge) :
  run ops h = Returns h' ->
  is_null (o_tx_opts h') = is_null (o_tx_opts h) /\
  is_null (p_tx_opts h') = is_null (p_tx_opts h).
Proof.
  revert h; induction ops as [|op ops IH]; intros h Hr; cbn in Hr.
  - inversion Hr; auto.
  - destruct (exec op h) as [h1|] eqn:H1; [|discriminate].
    destruct (IH h1 Hr) as [Ho Hp].
    destruct (exec_presence op h H1) as (_ & _ & Ho1 & Hp1).
    split; congruence.
Qed.

(** Only [start] makes the transaction. *)
Lemma exec_tx_absent (op : Op) (h h' : TxBridge) :
  is_start op = false -> tx h = None -> exec op h = Returns h' -> tx h' = None.
Proof.
  intros Hs Ht H; destruct h; cbn in Ht; subst; destruct op;
    try discriminate Hs; member_inv; auto.
Qed.

Lemma run_tx_absent (ops : list Op) (h h' : TxBridge) :
  forallb (fun op => negb (is_start op)) ops = true ->
  tx h = None -> run ops h = Returns h' -> tx h' = None.
Proof.
  revert h; induction ops as [|op ops IH]; intros h Hs Ht Hr; cbn in *.
  - inversion Hr; subst; exact Ht.
  - apply andb_true_iff in Hs as [Hop Hs].
    destruct (exec op h) as [h1|] eqn:H1; [|discriminate].
    apply (IH h1); auto.
    apply (exec_tx_absent op h); auto.
    now apply negb_true_iff.
Qed.

(** Once made, the transaction object stays: no member function resets
    [tx]. *)
Lemma exec_active (op : Op) (h h' : TxBridge) :
  active h -> exec op h = Returns h' -> active h'.
Proof.
  unfold active; intros Ht H; destruct h; destruct op; member_inv;
    congruence.
Qed.

Lemma exec_bound_when_active (op : Op) (h h' : TxBridge) :
  bound_when_active h -> exec op h = Returns h' -> bound_when_active h'.
Proof.
  unfold bound_when_active, active; intros Hb H.
  pose proof (exec_get_db op h H) as Hdb; rewrite Hdb.
  destruct (tx h) as [t|] eqn:Ht.
  - intros _; apply Hb; congruence.
  - destruct (is_start op) eqn:Hs.
    + destruct op; try discriminate Hs.
      intros _ Hnone. unfold exec, after, start in H. cbv beta in H.
      rewrite Hnone in H. discriminate.
    + intro Ha; exfalso; apply Ha. apply (exec_tx_absent op h Hs Ht H).
Qed.

Lemma reachable_well_formed (h : TxBridge) : reachable h -> well_formed h.
Proof.
  revert h; apply reachable_ind'; [intros h Hc | intros op h h' _ IH Hop].
  - split.
    + now apply constructed_ignores_range_deletions.
    + destruct Hc as [[p ->] | [p ->]]; cbn; discriminate.
    + intro Ha; exfalso; apply Ha.
      destruct Hc as [[p ->] | [p ->]]; reflexivity.
  - destruct IH as [Hr Hw Hb]; split.
    + eapply exec_ignores_range_deletions; eauto.
    + pose proof (exec_presence op h Hop) as (Hn & _).
      destruct (w_opts h'), (w_opts h); cbn in Hn; congruence.
    + eapply exec_bound_when_active; eauto.
Qed.

End Invariants.


(** ** How the member functions run *)

Section Running.

Context {E : Engine}.

Lemma on_tx_active (A : Type) (c : EngineCall)
  (f : Transaction -> A * Transaction) (h : TxBridge) (t : Transaction) :
  tx h = Some t ->
  on_tx c f h = Returns (fst (f t), with_tx (Some (snd (f t))) h, [c]).
Proof.
  intro Ht; unfold on_tx; rewrite Ht; destruct (f t); reflexivity.
Qed.

Lemma on_tx_absent (A : Type) (c : EngineCall)
  (f : Transaction -> A * Transaction) (h : TxBridge) :
  tx h = None -> on_tx c f h = Fatal.
Proof.
  intro Ht; unfold on_tx; rewrite Ht; reflexivity.
Qed.

(** A member function of the shape
    [write_status(tx->f(...), status)]. *)
Lemma relay_active (c : EngineCall) (f : Transaction -> Status * Transaction)
  (status : RdbStatus) (h : TxBridge) (t : Transaction) :
  tx h = Some t ->
  (s <- on_tx c f ;; pure (write_status s status)) h =
  Returns (write_status (fst (f t)) status, with_tx (Some (snd (f t))) h, [c]).
Proof.
  intro Ht; unfold bind, pure; rewrite (on_tx_active c f h Ht); reflexivity.
Qed.

Lemma get_for_update_active (key : RustBytes) (status : RdbStatus)
  (h : TxBridge) (t : Transaction) (ro : ReadOptions.t) (db : DB) :
  tx h = Some t -> r_opts h = Some ro -> get_db h = Some db ->
  get key true status h =
  Returns
    ((Some (snd (fst (Tx_GetForUpdate ro (DefaultColumnFamily db)
                        (convert_slice key) PinnableSlice_new t))),
      write_status
        (fst (fst (Tx_GetForUpdate ro (DefaultColumnFamily db)
                     (convert_slice key) PinnableSlice_new t))) status),
     with_tx (Some (snd (Tx_GetForUpdate ro (DefaultColumnFamily db)
                           (convert_slice key) PinnableSlice_new t))) h,
     [Call_GetForUpdate ro (DefaultColumnFamily db) (convert_slice key)]).
Proof.
  intros Ht Hro Hdb.
  unfold get, tx_GetForUpdate, bind, deref, pure, stored, make_unique.
  rewrite Hro, Hdb.
  rewrite (on_tx_active _ _ h Ht).
  destruct (Tx_GetForUpdate ro (DefaultColumnFamily db) (convert_slice key)
              PinnableSlice_new t) as [[s v] t'].
  reflexivity.
Qed.

Lemma get_plain_active (key : RustBytes) (status : RdbStatus)
  (h : TxBridge) (t : Transaction) (ro : ReadOptions.t) :
  tx h = Some t -> r_opts h = Some ro ->
  get key false status h =
  Returns
    ((Some (snd (fst (Tx_Get ro (convert_slice key) PinnableSlice_new t))),
      write_status
        (fst (fst (Tx_Get ro (convert_slice key) PinnableSlice_new t))) status),
     with_tx (Some (snd (Tx_Get ro (convert_slice key) PinnableSlice_new t))) h,
     [Call_Get ro (convert_slice key)]).
Proof.
  intros Ht Hro.
  unfold get, tx_Get, bind, deref, pure, stored, make_unique.
  rewrite Hro.
  rewrite (on_tx_active _ _ h Ht).
  destruct (Tx_Get ro (convert_slice key) PinnableSlice_new t) as [[s v] t'].
  reflexivity.
Qed.

(** What a reachable handle with a live transaction holds. *)
Lemma reachable_active (h : TxBridge) :
  reachable h -> active h ->
  exists t ro db,
    tx h = Some t /\ r_opts h = Some ro /\ get_db h = Some db /\
    ReadOptions.ignore_range_deletions ro = true.
Proof.
  intros Hr Ha.
  destruct (reachable_well_formed Hr) as [(ro & Hro & Hird) _ Hb].
  specialize (Hb Ha).
  unfold active in Ha.
  destruct (tx h) as [t|] eqn:Ht; [|congruence].
  destruct (get_db h) as [db|] eqn:Hdb; [|congruence].
  exists t, ro, db; auto.
Qed.

End Running.

Lemma demo_optimistic_started_reachable : reachable demo_optimistic_started.
Proof.
  exists demo_optimistic, [OpStart]; split.
  - left; exists (Some demo_store); reflexivity.
  - reflexivity.
Defined.

Lemma demo_pessimistic_started_reachable : reachable demo_pessimistic_started.
Proof.
  exists demo_pessimistic, [OpStart]; split.
  - right; exists (Some demo_store); reflexivity.
  - reflexivity.
Defined.

Lemma demo_optimistic_started_active : active demo_optimistic_started.
Proof. discriminate. Defined.

Lemma demo_pessimistic_started_active : active demo_pessimistic_started.
Proof. discriminate. Defined.

(** ** Properties of the bridge *)

(** C1.  On every reachable handle with a live transaction, [get] looks the
    key up through that transaction with one engine call that is handed the
    handle's current read options and the converted key.  With [for_update]
    the call is [GetForUpdate], on the default column family of the bound
    store [get_db()]; without it the call is the plain [Get], the overload
    that names no column family and so addresses the engine's default one.
    The value and the status are those of that call. *)
Theorem get_reads_through_transaction :
  forall (E : Engine) (h : TxBridge) (key : RustBytes) (status : RdbStatus),
    reachable h -> active h ->
    exists t ro db,
      tx h = Some t /\ r_opts h = Some ro /\ get_db h = Some db /\
      get key true status h =
        Returns
          ((Some (snd (fst (Tx_GetForUpdate ro (DefaultColumnFamily db)
                              (convert_slice key) PinnableSlice_new t))),
            write_status
              (fst (fst (Tx_GetForUpdate ro (DefaultColumnFamily db)
                           (convert_slice key) PinnableSlice_new t))) status),
           with_tx (Some (snd (Tx_GetForUpdate ro (DefaultColumnFamily db)
                                 (convert_slice key) PinnableSlice_new t))) h,
           [Call_GetForUpdate ro (DefaultColumnFamily db) (convert_slice key)])
      /\
      get key false status h =
        Returns
          ((Some (snd (fst (Tx_Get ro (convert_slice key)
                              PinnableSlice_new t))),
            write_status
              (fst (fst (Tx_Get ro (convert_slice key)
                           PinnableSlice_new t))) status),
           with_tx (Some (snd (Tx_Get ro (convert_slice key)
                                 PinnableSlice_new t))) h,
           [Call_Get ro (convert_slice key)]).
Proof.
  intros E h key status Hr Ha.
  destruct (reachable_active Hr Ha) as (t & ro & db & Ht & Hro & Hdb & _).
  exists t, ro, db.
  repeat split; try assumption.
  - now apply get_for_update_active.
  - now apply get_plain_active.
Qed.

Lemma get_reads_through_transaction_witness :
  exists t ro db,
    tx demo_pessimistic_started = Some t /\
    r_opts demo_pessimistic_started = Some ro /\
    get_db demo_pessimistic_started = Some db /\
    get (b "k") true sink0 demo_pessimistic_started =
      Returns
        ((Some (snd (fst (Tx_GetForUpdate ro (DefaultColumnFamily db)
                            (convert_slice (b "k")) PinnableSlice_new t))),
          write_status
            (fst (fst (Tx_GetForUpdate ro (DefaultColumnFamily db)
                         (convert_slice (b "k")) PinnableSlice_new t))) sink0),
         with_tx (Some (snd (Tx_GetForUpdate ro (DefaultColumnFamily db)
                               (convert_slice (b "k")) PinnableSlice_new t)))
           demo_pessimistic_started,
         [Call_GetForUpdate ro (DefaultColumnFamily db)
            (convert_slice (b "k"))])
    /\
    get (b "k") false sink0 demo_pessimistic_started =
      Returns
        ((Some (snd (fst (Tx_Get ro (convert_slice (b "k"))
                            PinnableSlice_new t))),
          write_status
            (fst (fst (Tx_Get ro (convert_slice (b "k"))
                         PinnableSlice_new t))) sink0),
         with_tx (Some (snd (Tx_Get ro (convert_slice (b "k"))
                               PinnableSlice_new t)))
           demo_pessimistic_started,
         [Call_Get ro (convert_slice (b "k"))]).
Proof.
  apply (@get_reads_through_transaction Ref.engine demo_pessimistic_started
           (b "k") sink0).
  - exact demo_pessimistic_started_reachable.
  - exact demo_pessimistic_started_active.
Defined.

(** On the reference engine: the read for update of a held key reports the
    conflict, the plain read of the same key does not take part in locking;
    both carry the read options with range deletions ignored. *)
Example get_on_reference_engine :
  get (E := Ref.engine) (b "busy") true sink0 demo_pessimistic_started =
    Returns ((Some [], mkRdbStatus kConflict "Resource busy: "),
             demo_pessimistic_started,
             [Call_GetForUpdate (E := Ref.engine) (ReadOptions.mk true true true)
                "default"%string (b "busy")]) /\
  get (E := Ref.engine) (b "k") false sink0 demo_pessimistic_started =
    Returns ((Some (b "old"), mkRdbStatus kOk EmptyString),
             demo_pessimistic_started,
             [Call_Get (ReadOptions.mk true true true) (b "k")]).
Proof. split; reflexivity. Qed.

(** C2.  [set_snapshot] goes by phase.  With a live transaction, [true]
    calls [SetSnapshot] on it and [false] does nothing at all.  With no
    transaction the flag is stored in the transaction options that are
    present, the optimistic ones first, and nothing else changes: options
    that are absent stay absent.  On a handle made by the optimistic
    constructor and not yet started these are the optimistic options, on one
    made by the pessimistic constructor the pessimistic ones.  The call is
    never undefined. *)
Theorem set_snapshot_by_phase :
  forall (E : Engine) (h : TxBridge) (val : bool),
    (forall t, tx h = Some t ->
       set_snapshot val h =
         if val
         then Returns (tt, with_tx (Some (Tx_SetSnapshot t)) h, [Call_SetSnapshot])
         else Returns (tt, h, [])) /\
    (tx h = None -> forall o, o_tx_opts h = Some o ->
       set_snapshot val h =
         Returns (tt,
                  with_o_tx_opts (Some (OptimisticTransactionOptions.mk val)) h,
                  [])) /\
    (tx h = None -> o_tx_opts h = None -> forall o, p_tx_opts h = Some o ->
       set_snapshot val h =
         Returns (tt, with_p_tx_opts (Some (TransactionOptions.mk val)) h, [])) /\
    (tx h = None -> o_tx_opts h = None -> p_tx_opts h = None ->
       set_snapshot val h = Returns (tt, h, [])) /\
    (forall (h0 : TxBridge) (ops : list Op),
       run ops h0 = Returns h -> tx h = None ->
       ((exists odb_, h0 = TxBridge_optimistic odb_) ->
        set_snapshot val h =
          Returns (tt,
                   with_o_tx_opts (Some (OptimisticTransactionOptions.mk val)) h,
                   []) /\
        p_tx_opts h = None) /\
       ((exists tdb_, h0 = TxBridge_pessimistic tdb_) ->
        set_snapshot val h =
          Returns (tt, with_p_tx_opts (Some (TransactionOptions.mk val)) h,
                   []) /\
        o_tx_opts h = None)).
Proof.
  intros E h val.
  assert (Hlive : forall t, tx h = Some t ->
            set_snapshot val h =
              if val
              then Returns (tt, with_tx (Some (Tx_SetSnapshot t)) h,
                            [Call_SetSnapshot])
              else Returns (tt, h, [])).
  { intros t Ht. unfold set_snapshot, tx_SetSnapshot. rewrite Ht. cbn.
    destruct val; [|reflexivity].
    rewrite (on_tx_active Call_SetSnapshot
               (fun t0 => (tt, Tx_SetSnapshot t0)) h Ht).
    reflexivity. }
  assert (Hopt : tx h = None -> forall o, o_tx_opts h = Some o ->
            set_snapshot val h =
              Returns (tt,
                       with_o_tx_opts
                         (Some (OptimisticTransactionOptions.mk val)) h, [])).
  { intros Ht o Ho. unfold set_snapshot, bind, deref, modify.
    rewrite Ht, Ho. reflexivity. }
  assert (Hpes : tx h = None -> o_tx_opts h = None ->
            forall o, p_tx_opts h = Some o ->
            set_snapshot val h =
              Returns (tt,
                       with_p_tx_opts (Some (TransactionOptions.mk val)) h, [])).
  { intros Ht Ho o Hp. unfold set_snapshot, bind, deref, modify.
    rewrite Ht, Ho, Hp. reflexivity. }
  split; [exact Hlive|].
  split; [exact Hopt|].
  split; [exact Hpes|].
  split.
  { intros Ht Ho Hp. unfold set_snapshot. rewrite Ht, Ho, Hp. reflexivity. }
  intros h0 ops Hrun Ht.
  destruct (run_presence ops h0 Hrun) as [Ho Hp].
  split; intros [p ->]; cbn in Ho, Hp.
  - destruct (o_tx_opts h) as [o|] eqn:Hoo; [|discriminate Ho].
    destruct (p_tx_opts h) as [q|] eqn:Hpp; [discriminate Hp|].
    split; [exact (Hopt Ht o eq_refl) | reflexivity].
  - destruct (o_tx_opts h) as [o|] eqn:Hoo; [discriminate Ho|].
    destruct (p_tx_opts h) as [q|] eqn:Hpp; [|discriminate Hp].
    split; [exact (Hpes Ht eq_refl q eq_refl) | reflexivity].
Qed.

Lemma set_snapshot_by_phase_witness :
  set_snapshot true demo_optimistic_started =
    Returns (tt,
             with_tx (Some (Tx_SetSnapshot demo_optimistic_tx))
               demo_optimistic_started,
             [Call_SetSnapshot]) /\
  set_snapshot false demo_optimistic_started =
    Returns (tt, demo_optimistic_started, []) /\
  set_snapshot true demo_pessimistic =
    Returns (tt,
             with_p_tx_opts (Some (TransactionOptions.mk true)) demo_pessimistic,
             []).
Proof.
  destruct (@set_snapshot_by_phase Ref.engine demo_optimistic_started true)
    as (Hlive & _).
  destruct (@set_snapshot_by_phase Ref.engine demo_optimistic_started false)
    as (Hidle & _).
  destruct (@set_snapshot_by_phase Ref.engine demo_pessimistic true)
    as (_ & _ & Hstage & _).
  split; [exact (Hlive demo_optimistic_tx eq_refl)|].
  split; [exact (Hidle demo_optimistic_tx eq_refl)|].
  exact (Hstage eq_refl eq_refl (TransactionOptions.mk false) eq_refl).
Defined.

(** On the reference engine: a flag staged before [start] is the snapshot
    setting of the transaction [start] begins, and the options of the other
    mode are still absent. *)
Example staged_snapshot_on_reference_engine :
  exists h,
    run [OpSetSnapshot true; OpStart] demo_pessimistic = Returns h /\
    option_map Ref.snapshot (tx h) = Some true /\
    p_tx_opts h = Some (TransactionOptions.mk true) /\
    o_tx_opts h = None.
Proof. eexists; repeat split. Qed.

(** C8.  [clear_snapshot] dereferences [tx] without a test: with a live
    transaction it calls [ClearSnapshot] on it, once, and touches nothing
    else; with no transaction the call is undefined. *)
Theorem clear_snapshot_needs_transaction :
  forall (E : Engine) (h : TxBridge),
    (forall t, tx h = Some t ->
       clear_snapshot h =
         Returns (tt, with_tx (Some (Tx_ClearSnapshot t)) h,
                  [Call_ClearSnapshot])) /\
    (tx h = None -> clear_snapshot h = Fatal).
Proof.
  intros E h; split.
  - intros t Ht. unfold clear_snapshot, tx_ClearSnapshot.
    rewrite (on_tx_active Call_ClearSnapshot
               (fun t0 => (tt, Tx_ClearSnapshot t0)) h Ht).
    reflexivity.
  - intro Ht. unfold clear_snapshot, tx_ClearSnapshot.
    now apply on_tx_absent.
Qed.

Lemma clear_snapshot_needs_transaction_witness :
  clear_snapshot demo_optimistic_started =
    Returns (tt,
             with_tx (Some (Tx_ClearSnapshot demo_optimistic_tx))
               demo_optimistic_started,
             [Call_ClearSnapshot]) /\
  clear_snapshot demo_optimistic = Fatal.
Proof.
  split.
  - apply (proj1 (@clear_snapshot_needs_transaction Ref.engine
                    demo_optimistic_started)).
    reflexivity.
  - apply (proj2 (@clear_snapshot_needs_transaction Ref.engine
                    demo_optimistic)).
    reflexivity.
Defined.

(** On the reference engine: a snapshot attached to the live transaction is
    gone after [clear_snapshot]; before [start] the call is undefined. *)
Example clear_snapshot_on_reference_engine :
  (exists h1 h2 c1 c2,
     set_snapshot true demo_optimistic_started = Returns (tt, h1, c1) /\
     option_map Ref.snapshot (tx h1) = Some true /\
     clear_snapshot h1 = Returns (tt, h2, c2) /\
     option_map Ref.snapshot (tx h2) = Some false) /\
  clear_snapshot demo_optimistic = Fatal.
Proof.
  split; [|reflexivity].
  do 4 eexists; repeat split.
Qed.

(** C6.  In every reachable state of a handle the read options are present
    and have [ignore_range_deletions = true]: both constructors set it, and
    no member function changes it. *)
Theorem range_deletions_always_ignored :
  forall (E : Engine) (h : TxBridge),
    reachable h ->
    exists ro,
      r_opts h = Some ro /\ ReadOptions.ignore_range_deletions ro = true.
Proof.
  intros E h Hr.
  revert h Hr; apply reachable_ind'.
  - intros h Hc. now apply constructed_ignores_range_deletions.
  - intros op h h' _ IH Hop.
    exact (exec_ignores_range_deletions op IH Hop).
Qed.

Lemma demo_busy_reachable : reachable demo_busy.
Proof.
  exists demo_pessimistic, demo_busy_ops; split.
  - right; exists (Some demo_store); reflexivity.
  - vm_compute; reflexivity.
Defined.

Lemma range_deletions_always_ignored_witness :
  exists ro,
    r_opts demo_busy = Some ro /\ ReadOptions.ignore_range_deletions ro = true.
Proof.
  apply (@range_deletions_always_ignored Ref.engine demo_busy).
  exact demo_busy_reachable.
Defined.

(** C7, as stated, fails: the constructors store the pointer they are given
    without a test, so a constructor given a null pointer leaves both store
    pointers null, and no store is bound, while the transaction options of
    its mode are present all the same. *)
Lemma null_store_binds_no_store :
  odb (TxBridge_optimistic (E := Ref.engine) nullptr) = None /\
  tdb (TxBridge_optimistic (E := Ref.engine) nullptr) = None /\
  is_null (o_tx_opts (TxBridge_optimistic (E := Ref.engine) nullptr)) = false /\
  odb (TxBridge_pessimistic (E := Ref.engine) nullptr) = None /\
  tdb (TxBridge_pessimistic (E := Ref.engine) nullptr) = None /\
  is_null (p_tx_opts (TxBridge_pessimistic (E := Ref.engine) nullptr)) = false.
Proof. repeat split. Qed.

(** C7, amended.  A constructor stores its argument as the store pointer of
    its own mode, which is therefore not null when the argument is not, and
    leaves the transaction options of its own mode, the write options and
    the read options present, the store pointer and the transaction options
    of the other mode null, and the transaction null.  The transaction stays
    null through any calls other than [start]. *)
Theorem constructors_set_up_one_mode :
  forall (E : Engine),
    (forall odb_ : ptr OptimisticTransactionDB,
       odb (TxBridge_optimistic odb_) = odb_ /\
       tdb (TxBridge_optimistic odb_) = None /\
       is_null (o_tx_opts (TxBridge_optimistic odb_)) = false /\
       p_tx_opts (TxBridge_optimistic odb_) = None /\
       is_null (w_opts (TxBridge_optimistic odb_)) = false /\
       is_null (r_opts (TxBridge_optimistic odb_)) = false /\
       tx (TxBridge_optimistic odb_) = None) /\
    (forall o : OptimisticTransactionDB,
       is_null (odb (TxBridge_optimistic (Some o))) = false) /\
    (forall tdb_ : ptr TransactionDB,
       tdb (TxBridge_pessimistic tdb_) = tdb_ /\
       odb (TxBridge_pessimistic tdb_) = None /\
       is_null (p_tx_opts (TxBridge_pessimistic tdb_)) = false /\
       o_tx_opts (TxBridge_pessimistic tdb_) = None /\
       is_null (w_opts (TxBridge_pessimistic tdb_)) = false /\
       is_null (r_opts (TxBridge_pessimistic tdb_)) = false /\
       tx (TxBridge_pessimistic tdb_) = None) /\
    (forall t : TransactionDB,
       is_null (tdb (TxBridge_pessimistic (Some t))) = false) /\
    (forall (h0 h : TxBridge) (ops : list Op),
       constructed h0 ->
       forallb (fun op => negb (is_start op)) ops = true ->
       run ops h0 = Returns h ->
       tx h = None).
Proof.
  intro E.
  split; [intro odb_; cbn; tauto|].
  split; [intro o; reflexivity|].
  split; [intro tdb_; cbn; tauto|].
  split; [intro t; reflexivity|].
  intros h0 h ops Hc Hs Hr.
  apply (run_tx_absent ops h0 Hs); [|exact Hr].
  destruct Hc as [[p ->] | [p ->]]; reflexivity.
Qed.

Lemma constructors_set_up_one_mode_witness :
  is_null (odb demo_optimistic) = false /\
  is_null (tdb demo_pessimistic) = false /\
  tx (with_r_opts (Some (ReadOptions.mk false true true)) demo_optimistic)
    = None.
Proof.
  destruct (@constructors_set_up_one_mode Ref.engine)
    as (_ & Ho & _ & Hp & Hrun).
  split; [exact (Ho demo_store)|].
  split; [exact (Hp demo_store)|].
  apply (Hrun demo_optimistic _ [OpVerifyChecksums false]).
  - left; exists (Some demo_store); reflexivity.
  - reflexivity.
  - reflexivity.
Defined.

(** On the reference engine: the handle is reconfigured before [start], and
    the transaction is still null. *)
Example no_transaction_before_start :
  exists h,
    run [OpVerifyChecksums false; OpSetSnapshot true;
         OpAssignWOpts (demo_w_opts true true); OpFillCache false]
      demo_optimistic = Returns h /\
    tx h = None /\
    o_tx_opts h = Some (OptimisticTransactionOptions.mk true) /\
    p_tx_opts h = None.
Proof. eexists; repeat split. Qed.

(** C9, as stated, fails: a handle made from a null store pointer is a
    handle a constructor produces, and its [get_db] is null. *)
Lemma get_db_null_without_store :
  reachable (TxBridge_optimistic (E := Ref.engine) nullptr) /\
  get_db (TxBridge_optimistic (E := Ref.engine) nullptr) = None /\
  reachable (TxBridge_pessimistic (E := Ref.engine) nullptr) /\
  get_db (TxBridge_pessimistic (E := Ref.engine) nullptr) = None.
Proof.
  repeat split.
  - exists (TxBridge_optimistic nullptr), []; split; [|reflexivity].
    left; exists nullptr; reflexivity.
  - exists (TxBridge_pessimistic nullptr), []; split; [|reflexivity].
    right; exists nullptr; reflexivity.
Qed.

(** C9, amended.  Through any calls, [get_db] of a handle is what it was at
    construction: the pessimistic store when the handle holds one, otherwise
    the optimistic store pointer.  It is the pointer the constructor was
    given, and so it is not null when that pointer was not. *)
Theorem get_db_is_the_bound_store :
  forall (E : Engine) (h0 h : TxBridge) (ops : list Op),
    run ops h0 = Returns h ->
    get_db h = get_db h0 /\
    get_db h =
      match tdb h with
      | Some t => Some (DB_of_tdb t)
      | None => option_map DB_of_odb (odb h)
      end /\
    (forall odb_, h0 = TxBridge_optimistic odb_ ->
       get_db h = option_map DB_of_odb odb_) /\
    (forall tdb_, h0 = TxBridge_pessimistic tdb_ ->
       get_db h = option_map DB_of_tdb tdb_) /\
    (forall o, h0 = TxBridge_optimistic (Some o) ->
       get_db h = Some (DB_of_odb o)) /\
    (forall t, h0 = TxBridge_pessimistic (Some t) ->
       get_db h = Some (DB_of_tdb t)).
Proof.
  intros E h0 h ops Hr.
  assert (Hsame : get_db h = get_db h0).
  { revert h0 Hr; induction ops as [|op ops IH]; intros h0 Hr; cbn in Hr.
    - inversion Hr; reflexivity.
    - destruct (exec op h0) as [h1|] eqn:H1; [|discriminate].
      rewrite (IH h1 Hr). exact (exec_get_db op h0 H1). }
  split; [exact Hsame|].
  split; [unfold get_db; destruct (tdb h); reflexivity|].
  rewrite Hsame.
  repeat split; intros p ->; unfold get_db; cbn; try reflexivity.
  destruct p; reflexivity.
Qed.

Lemma get_db_is_the_bound_store_witness :
  get_db demo_busy = get_db demo_pessimistic /\
  get_db demo_busy =
    match tdb demo_busy with
    | Some t => Some (DB_of_tdb t)
    | None => option_map DB_of_odb (odb demo_busy)
    end /\
  (forall odb_, demo_pessimistic = TxBridge_optimistic odb_ ->
     get_db demo_busy = option_map DB_of_odb odb_) /\
  (forall tdb_, demo_pessimistic = TxBridge_pessimistic tdb_ ->
     get_db demo_busy = option_map DB_of_tdb tdb_) /\
  (forall o, demo_pessimistic = TxBridge_optimistic (Some o) ->
     get_db demo_busy = Some (DB_of_odb o)) /\
  (forall t, demo_pessimistic = TxBridge_pessimistic (Some t) ->
     get_db demo_busy = Some (DB_of_tdb t)).
Proof.
  apply (@get_db_is_the_bound_store Ref.engine demo_pessimistic demo_busy
           demo_busy_ops).
  vm_compute; reflexivity.
Defined.

(** On the reference engine, after every kind of call: the store is still
    the one the pessimistic constructor was given. *)
Example get_db_after_calls :
  get_db demo_busy = Some (DB_of_tdb (E := Ref.engine) demo_store).
Proof. vm_compute; reflexivity. Qed.

(** C10.  On every reachable handle with a live transaction, [get] returns
    a pointer that is not null, whatever the engine answers: the pointer is
    the new [PinnableSlice] the call allocated, holding what the engine left
    in it, and the answer itself goes to the status only. *)
Theorem get_always_returns_a_buffer :
  forall (E : Engine) (h : TxBridge) (key : RustBytes) (for_update : bool)
         (status : RdbStatus),
    reachable h -> active h ->
    exists t ro db,
      tx h = Some t /\ r_opts h = Some ro /\ get_db h = Some db /\
      exists buf st h' calls,
        get key for_update status h = Returns ((Some buf, st), h', calls) /\
        buf =
          snd (fst (if for_update
                    then Tx_GetForUpdate ro (DefaultColumnFamily db)
                           (convert_slice key) PinnableSlice_new t
                    else Tx_Get ro (convert_slice key) PinnableSlice_new t)) /\
        st =
          write_status
            (fst (fst (if for_update
                       then Tx_GetForUpdate ro (DefaultColumnFamily db)
                              (convert_slice key) PinnableSlice_new t
                       else Tx_Get ro (convert_slice key) PinnableSlice_new t)))
            status.
Proof.
  intros E h key for_update status Hr Ha.
  destruct (reachable_active Hr Ha) as (t & ro & db & Ht & Hro & Hdb & _).
  exists t, ro, db; repeat split; try assumption.
  destruct for_update.
  - rewrite (get_for_update_active key status h Ht Hro Hdb).
    do 4 eexists; repeat split.
  - rewrite (get_plain_active key status h Ht Hro).
    do 4 eexists; repeat split.
Qed.

Lemma get_always_returns_a_buffer_witness :
  exists t ro db,
    tx demo_optimistic_started = Some t /\
    r_opts demo_optimistic_started = Some ro /\
    get_db demo_optimistic_started = Some db /\
    exists buf st h' calls,
      get (b "missing") false sink0 demo_optimistic_started =
        Returns ((Some buf, st), h', calls) /\
      buf =
        snd (fst (if false
                  then Tx_GetForUpdate ro (DefaultColumnFamily db)
                         (convert_slice (b "missing")) PinnableSlice_new t
                  else Tx_Get ro (convert_slice (b "missing"))
                         PinnableSlice_new t)) /\
      st =
        write_status
          (fst (fst (if false
                     then Tx_GetForUpdate ro (DefaultColumnFamily db)
                            (convert_slice (b "missing")) PinnableSlice_new t
                     else Tx_Get ro (convert_slice (b "missing"))
                            PinnableSlice_new t)))
          sink0.
Proof.
  apply (@get_always_returns_a_buffer Ref.engine demo_optimistic_started
           (b "missing") false sink0).
  - exact demo_optimistic_started_reachable.
  - exact demo_optimistic_started_active.
Defined.

(** On the reference engine: found, not found and conflict all come with a
    buffer; only the status tells them apart. *)
Example get_buffer_on_reference_engine :
  (exists h' c,
     get (b "k") false sink0 demo_pessimistic_started =
       Returns ((Some (b "old"), mkRdbStatus kOk EmptyString), h', c)) /\
  (exists h' c,
     get (b "missing") false sink0 demo_pessimistic_started =
       Returns ((Some [], mkRdbStatus kNotFound "NotFound: "), h', c)) /\
  (exists h' c,
     get (b "busy") true sink0 demo_pessimistic_started =
       Returns ((Some [], mkRdbStatus kConflict "Resource busy: "), h', c)).
Proof. repeat split; do 2 eexists; reflexivity. Qed.

(** C5.  On a reachable handle with a live transaction each of [put], [del],
    [commit], [rollback], [rollback_to_savepoint], [pop_savepoint] and [get]
    makes its engine call exactly once and writes the status of that call
    into the sink, code and message as the engine gave them, whatever the
    sink held before. *)
Theorem status_relayed_from_one_call :
  forall (E : Engine) (h : TxBridge) (t : Transaction),
    reachable h -> tx h = Some t ->
    (forall key val,
       relays (put key val)
         (Call_Put (convert_slice key) (convert_slice val))
         (Tx_Put (convert_slice key) (convert_slice val)) h t) /\
    (forall key,
       relays (del key) (Call_Delete (convert_slice key))
         (Tx_Delete (convert_slice key)) h t) /\
    relays commit Call_Commit Tx_Commit h t /\
    relays rollback Call_Rollback Tx_Rollback h t /\
    relays rollback_to_savepoint Call_RollbackToSavePoint
      Tx_RollbackToSavePoint h t /\
    relays pop_savepoint Call_PopSavePoint Tx_PopSavePoint h t /\
    exists ro db,
      r_opts h = Some ro /\ get_db h = Some db /\
      forall key status,
        (exists buf h',
           get key true status h =
             Returns
               ((buf,
                 mkRdbStatus
                   (code (fst (fst (Tx_GetForUpdate ro (DefaultColumnFamily db)
                                      (convert_slice key) PinnableSlice_new t))))
                   (message (fst (fst (Tx_GetForUpdate ro
                                         (DefaultColumnFamily db)
                                         (convert_slice key)
                                         PinnableSlice_new t))))),
                h',
                [Call_GetForUpdate ro (DefaultColumnFamily db)
                   (convert_slice key)])) /\
        (exists buf h',
           get key false status h =
             Returns
               ((buf,
                 mkRdbStatus
                   (code (fst (fst (Tx_Get ro (convert_slice key)
                                      PinnableSlice_new t))))
                   (message (fst (fst (Tx_Get ro (convert_slice key)
                                         PinnableSlice_new t))))),
                h',
                [Call_Get ro (convert_slice key)])).
Proof.
  intros E h t Hr Ht.
  assert (Ha : active h) by (unfold active; congruence).
  destruct (reachable_active Hr Ha) as (t' & ro & db & Ht' & Hro & Hdb & _).
  assert (t' = t) by congruence; subst t'.
  repeat split;
    try (intros; intro status; unfold put, del, commit, rollback,
           rollback_to_savepoint, pop_savepoint, tx_Put, tx_Delete, tx_Commit,
           tx_Rollback, tx_RollbackToSavePoint, tx_PopSavePoint;
         rewrite (relay_active _ _ status h Ht); reflexivity).
  exists ro, db; repeat split; try assumption.
  - rewrite (get_for_update_active key status h Ht Hro Hdb).
    do 2 eexists; reflexivity.
  - rewrite (get_plain_active key status h Ht Hro).
    do 2 eexists; reflexivity.
Qed.

Lemma status_relayed_from_one_call_witness :
  (forall key val,
     relays (put key val)
       (Call_Put (convert_slice key) (convert_slice val))
       (Tx_Put (convert_slice key) (convert_slice val))
       demo_pessimistic_started
       demo_pessimistic_tx) /\
  (forall key,
     relays (del key) (Call_Delete (convert_slice key))
       (Tx_Delete (convert_slice key)) demo_pessimistic_started
       demo_pessimistic_tx) /\
  relays commit Call_Commit Tx_Commit demo_pessimistic_started
    demo_pessimistic_tx /\
  relays rollback Call_Rollback Tx_Rollback demo_pessimistic_started
    demo_pessimistic_tx /\
  relays rollback_to_savepoint Call_RollbackToSavePoint
    Tx_RollbackToSavePoint demo_pessimistic_started
    demo_pessimistic_tx /\
  relays pop_savepoint Call_PopSavePoint Tx_PopSavePoint
    demo_pessimistic_started
    demo_pessimistic_tx /\
  exists ro db,
    r_opts demo_pessimistic_started = Some ro /\
    get_db demo_pessimistic_started = Some db /\
    forall key status,
      (exists buf h',
         get key true status demo_pessimistic_started =
           Returns
             ((buf,
               mkRdbStatus
                 (code (fst (fst (Tx_GetForUpdate ro (DefaultColumnFamily db)
                                    (convert_slice key) PinnableSlice_new
                                    demo_pessimistic_tx))))
                 (message (fst (fst (Tx_GetForUpdate ro
                                       (DefaultColumnFamily db)
                                       (convert_slice key) PinnableSlice_new
                                       demo_pessimistic_tx))))),
              h',
              [Call_GetForUpdate ro (DefaultColumnFamily db)
                 (convert_slice key)])) /\
      (exists buf h',
         get key false status demo_pessimistic_started =
           Returns
             ((buf,
               mkRdbStatus
                 (code (fst (fst (Tx_Get ro (convert_slice key)
                                    PinnableSlice_new
                                    demo_pessimistic_tx))))
                 (message (fst (fst (Tx_Get ro (convert_slice key)
                                       PinnableSlice_new
                                       demo_pessimistic_tx))))),
              h',
              [Call_Get ro (convert_slice key)])).
Proof.
  apply (@status_relayed_from_one_call Ref.engine demo_pessimistic_started).
  - exact demo_pessimistic_started_reachable.
  - reflexivity.
Defined.

(** On the reference engine: a failing call and a succeeding one, each made
    once, each status overwriting the stale sink. *)
Example status_on_reference_engine :
  put (b "busy") (b "v") sink0 demo_pessimistic_started =
    Returns (mkRdbStatus kConflict "Resource busy: ",
             demo_pessimistic_started,
             [Call_Put (E := Ref.engine) (b "busy") (b "v")]) /\
  pop_savepoint sink0 demo_pessimistic_started =
    Returns (mkRdbStatus kError "NotFound: no savepoint",
             demo_pessimistic_started,
             [Call_PopSavePoint (E := Ref.engine)]) /\
  (exists h',
     commit sink0 demo_pessimistic_started =
       Returns (mkRdbStatus kOk EmptyString, h',
                [Call_Commit (E := Ref.engine)])).
Proof. repeat split. eexists; reflexivity. Qed.

(** C3, as stated, fails: on the started optimistic handle of the reference
    engine neither [put] nor [del] hands the write options to the engine,
    and after the caller has changed them through [get_w_opts] both do to
    the engine exactly what they did before. *)
Lemma put_del_do_not_apply_write_options :
  reachable demo_optimistic_started /\
  active demo_optimistic_started /\
  ~ applies_write_options (put (b "a") (b "1") sink0) demo_optimistic_started /\
  ~ applies_write_options (del (b "a") sink0) demo_optimistic_started /\
  exists h_sync,
    assign_w_opts (demo_w_opts true true) demo_optimistic_started =
      Returns (tt, h_sync, []) /\
    w_opts h_sync <> w_opts demo_optimistic_started /\
    engine_effect (put (b "a") (b "1") sink0 h_sync) =
      engine_effect (put (b "a") (b "1") sink0 demo_optimistic_started) /\
    engine_effect (del (b "a") sink0 h_sync) =
      engine_effect (del (b "a") sink0 demo_optimistic_started).
Proof.
  split; [exact demo_optimistic_started_reachable|].
  split; [exact demo_optimistic_started_active|].
  split; [|split].
  - intros (r & h' & calls & wo & Hrun & Hwo & Hex).
    vm_compute in Hrun. inversion Hrun; subst.
    apply Exists_exists in Hex as (c & [<- | []] & Hc). discriminate Hc.
  - intros (r & h' & calls & wo & Hrun & Hwo & Hex).
    vm_compute in Hrun. inversion Hrun; subst.
    apply Exists_exists in Hex as (c & [<- | []] & Hc). discriminate Hc.
  - eexists; split; [reflexivity|].
    split; [discriminate|].
    split; reflexivity.
Qed.

(** On the reference engine: the write options reach the engine when
    [start] begins the transaction; a later change through [get_w_opts] is
    seen by the handle and not by the transaction. *)
Example write_options_go_in_at_start :
  exists h,
    run [OpAssignWOpts (demo_w_opts true true); OpStart;
         OpAssignWOpts (demo_w_opts false false)] demo_optimistic
      = Returns h /\
    option_map Ref.begun_with (tx h) = Some (Ref.mkWriteOpts true true) /\
    w_opts h = Some (demo_w_opts false false).
Proof. eexists; repeat split. Qed.

(** C3, amended.  [put] and [del] do not consult the write options: the
    value they return, the transaction they leave and the engine calls they
    make are the same whatever the handle's write options are at the call.
    With a live transaction the one call is [Put(key, value)], respectively
    [Delete(key)], which carries no write options. *)
Theorem put_del_independent_of_write_options :
  forall (E : Engine) (h : TxBridge) (wo : unique_ptr WriteOptions)
         (key val : RustBytes) (status : RdbStatus),
    engine_effect (put key val status (with_w_opts wo h)) =
      engine_effect (put key val status h) /\
    engine_effect (del key status (with_w_opts wo h)) =
      engine_effect (del key status h) /\
    (forall t, tx h = Some t ->
       (exists st h',
          put key val status h =
            Returns (st, h',
                     [Call_Put (convert_slice key) (convert_slice val)])) /\
       (exists st h',
          del key status h =
            Returns (st, h', [Call_Delete (convert_slice key)])) /\
       call_write_options (Call_Put (convert_slice key) (convert_slice val))
         = None /\
       call_write_options (Call_Delete (convert_slice key)) = None).
Proof.
  intros E h wo key val status.
  split; [|split].
  - unfold put, tx_Put, bind, pure, on_tx, engine_effect; cbn.
    destruct (tx h) as [t|]; [|reflexivity].
    destruct (Tx_Put (convert_slice key) (convert_slice val) t); reflexivity.
  - unfold del, tx_Delete, bind, pure, on_tx, engine_effect; cbn.
    destruct (tx h) as [t|]; [|reflexivity].
    destruct (Tx_Delete (convert_slice key) t); reflexivity.
  - intros t Ht. repeat split.
    + unfold put, tx_Put. rewrite (relay_active _ _ status h Ht).
      do 2 eexists; reflexivity.
    + unfold del, tx_Delete. rewrite (relay_active _ _ status h Ht).
      do 2 eexists; reflexivity.
Qed.

(** ** Reading one's own writes *)

Section OwnWrites.

Context {E : Engine}.

Lemma exec_holds_tx_of_store (op : Op) (h h' : TxBridge) :
  holds_tx_of_store h -> exec op h = Returns h' -> holds_tx_of_store h'.
Proof.
  unfold holds_tx_of_store; intros Hinv H t' db Ht' Hdb'.
  rewrite (exec_get_db op h H) in Hdb'.
  destruct (tx h) as [t|] eqn:Ht.
  - specialize (Hinv t db eq_refl Hdb').
    destruct h as [o d x w r oo po]; cbn in Ht; subst x.
    destruct op; member_inv; try assumption;
      try (name_engine_result; constructor; assumption);
      try (constructor; assumption);
      try (constructor; reflexivity).
  - clear Hinv.
    destruct h as [o d x w r oo po]; cbn in Ht; subst x.
    destruct op; member_inv; constructor; reflexivity.
Qed.

Lemma reachable_holds_tx_of_store (h : TxBridge) :
  reachable h -> holds_tx_of_store h.
Proof.
  revert h; apply reachable_ind'.
  - intros h [[p ->] | [p ->]] t db Ht; discriminate Ht.
  - intros op h h' _ IH Hop. exact (exec_holds_tx_of_store op IH Hop).
Qed.

Hypothesis engine_ok : reads_own_writes E.

Lemma exec_keeps_shown (key : RustBytes) (value : Slice) (op : Op)
  (h h' : TxBridge) (t : Transaction) (db : DB) :
  ignores_range_deletions h -> leaves_key key op ->
  tx h = Some t -> get_db h = Some db -> tx_of db t ->
  shows db t (convert_slice key) value ->
  exec op h = Returns h' ->
  exists t',
    tx h' = Some t' /\ tx_of db t' /\ shows db t' (convert_slice key) value.
Proof.
  intros (ro & Hro & Hird) Hop Ht Hdb Hof Hs H.
  destruct h as [o d x w r oo po]; cbn in Ht, Hro; subst x r.
  destruct op; cbn in Hop; try contradiction; member_inv;
    eexists; (split; [reflexivity|]);
    try (split; assumption);
    try name_engine_result.
  - split; [now constructor | now apply (set_snapshot_keeps engine_ok)].
  - split; [now constructor | now apply (clear_snapshot_keeps engine_ok)].
  - split; [now constructor | now apply (get_for_update_keeps engine_ok)].
  - split; [now constructor | now apply (get_keeps engine_ok)].
  - split; [now constructor | now apply (put_elsewhere_keeps engine_ok)].
  - split; [now constructor | now apply (delete_elsewhere_keeps engine_ok)].
  - split; [now constructor | now apply (pop_savepoint_keeps engine_ok)].
  - split; [now constructor | now apply (set_savepoint_keeps engine_ok)].
Qed.

Lemma run_keeps_shown (key : RustBytes) (value : Slice) (db : DB)
  (ops : list Op) :
  Forall (leaves_key key) ops ->
  forall (h h' : TxBridge) (t : Transaction),
    reachable h -> tx h = Some t -> get_db h = Some db -> tx_of db t ->
    shows db t (convert_slice key) value ->
    run ops h = Returns h' ->
    reachable h' /\ get_db h' = Some db /\
    exists t', tx h' = Some t' /\ shows db t' (convert_slice key) value.
Proof.
  induction 1 as [|op ops Hop _ IH]; intros h h' t Hr Ht Hdb Hof Hs Hrun;
    cbn in Hrun.
  - inversion Hrun; subst; eauto.
  - destruct (exec op h) as [h1|] eqn:H1; [|discriminate].
    destruct (exec_keeps_shown op (h := h)
                (wf_r_opts (reachable_well_formed Hr)) Hop Ht Hdb Hof Hs H1)
      as (t1 & Ht1 & Hof1 & Hs1).
    apply (IH h1 h' t1); auto.
    + exact (reachable_step op Hr H1).
    + rewrite (exec_get_db op h H1); exact Hdb.
Qed.

End OwnWrites.

Lemma write_status_code (s : Status) (status : RdbStatus) :
  rdb_code (write_status s status) = code s.
Proof. reflexivity. Qed.


(** The reference engine keeps the promise. *)

Lemma bytes_eqb_refl (a : bytes) : Ref.bytes_eqb a a = true.
Proof.
  induction a as [|x a IH]; cbn; [reflexivity|].
  rewrite IH, (byte_dec_lb (eq_refl x)); reflexivity.
Qed.

Lemma bytes_eqb_eq (x y : bytes) : Ref.bytes_eqb x y = true -> x = y.
Proof.
  revert y; induction x as [|c x IH]; intros [|d y] H; cbn in H;
    try discriminate; [reflexivity|].
  apply andb_true_iff in H as [Hc Hx].
  f_equal; [now apply byte_dec_bl | now apply IH].
Qed.

Lemma bytes_eqb_neq (x y : bytes) : x <> y -> Ref.bytes_eqb x y = false.
Proof.
  intro Hne; destruct (Ref.bytes_eqb x y) eqn:Heq; [|reflexivity].
  exfalso; apply Hne; now apply bytes_eqb_eq.
Qed.

Lemma ref_shows_iff (db : DB) (t : Ref.Txn) (key value : Slice) :
  shows (E := Ref.engine) db t key value <->
  Ref.view t key = Some value /\ Ref.held key (Ref.locked_by_others t) = false.
Proof.
  unfold shows; cbn; unfold Ref.GetForUpdate, Ref.Get; split.
  - intros Hs.
    destruct (Hs (ReadOptions.mk true true true) eq_refl) as [[Hc Hv] [Hcu _]].
    destruct (Ref.held key (Ref.locked_by_others t)); [discriminate Hcu|].
    destruct (Ref.view t key) as [v|]; cbn in *; [|discriminate Hc].
    subst; auto.
  - intros [Hview Hheld] ro _; rewrite Hview, Hheld; cbn; auto.
Qed.

Lemma ref_reads_own_writes : reads_own_writes Ref.engine.
Proof.
  split.
  - intros db t key value _ Hok; apply ref_shows_iff.
    cbn in *; unfold Ref.Put in *.
    destruct (Ref.held key (Ref.locked_by_others t)) eqn:Hheld;
      [discriminate Hok|].
    cbn; split; [|exact Hheld].
    unfold Ref.view; cbn; rewrite bytes_eqb_refl; reflexivity.
  - intros db t key value ro k _ _ Hs; cbn; unfold Ref.Get.
    destruct (Ref.view t k); exact Hs.
  - intros db t key value ro k _ _ Hs; cbn; unfold Ref.GetForUpdate, Ref.Get.
    destruct (Ref.held k (Ref.locked_by_others t)); [exact Hs|].
    destruct (Ref.view t k); exact Hs.
  - intros db t key value k v _ Hne Hs; cbn; unfold Ref.Put.
    destruct (Ref.held k (Ref.locked_by_others t)); [exact Hs|].
    apply ref_shows_iff in Hs as [Hview Hheld]; apply ref_shows_iff.
    cbn; split; [|exact Hheld].
    unfold Ref.view in *; cbn.
    rewrite (bytes_eqb_neq (fun e => Hne (eq_sym e))); exact Hview.
  - intros db t key value k _ Hne Hs; cbn; unfold Ref.Delete.
    destruct (Ref.held k (Ref.locked_by_others t)); [exact Hs|].
    apply ref_shows_iff in Hs as [Hview Hheld]; apply ref_shows_iff.
    cbn; split; [|exact Hheld].
    unfold Ref.view in *; cbn.
    rewrite (bytes_eqb_neq (fun e => Hne (eq_sym e))); exact Hview.
  - intros db t key value _ Hs.
    apply ref_shows_iff in Hs; apply ref_shows_iff; exact Hs.
  - intros db t key value _ Hs; cbn; unfold Ref.PopSavePoint.
    destruct (Ref.savepoints t); [exact Hs|].
    apply ref_shows_iff in Hs; apply ref_shows_iff; exact Hs.
  - intros db t key value _ Hs.
    apply ref_shows_iff in Hs; apply ref_shows_iff; exact Hs.
  - intros db t key value _ Hs.
    apply ref_shows_iff in Hs; apply ref_shows_iff; exact Hs.
Qed.


(** On the reference engine: the written value is read back, for update,
    after a savepoint was set and popped, a snapshot attached and detached,
    another key written and the key read; and a [put] the engine refuses
    writes nothing, so there is nothing to read back. *)
Example read_back_on_reference_engine :
  (exists h1 h2 h3 c1 c3,
     put (b "a") (b "1") sink0 demo_pessimistic_started =
       Returns (mkRdbStatus kOk EmptyString, h1, c1) /\
     run [OpSetSavepoint; OpSetSnapshot true; OpPut (b "z") (b "9") sink0;
          OpGet (b "a") false sink0; OpPopSavepoint sink0; OpClearSnapshot]
       h1 = Returns h2 /\
     get (b "a") true sink0 h2 =
       Returns ((Some (b "1"), mkRdbStatus kOk EmptyString), h3, c3)) /\
  (exists h1 h2 c1 c2,
     put (b "busy") (b "1") sink0 demo_pessimistic_started =
       Returns (mkRdbStatus kConflict "Resource busy: ", h1, c1) /\
     get (b "busy") false sink0 h1 =
       Returns ((Some [], mkRdbStatus kNotFound "NotFound: "), h2, c2)).
Proof.
  split.
  - do 5 eexists; split; [reflexivity|]; split; reflexivity.
  - do 4 eexists; split; reflexivity.
Qed.

(** On the reference engine, the two scenarios of the spec.  Optimistic:
    start, put a 1, get a returns 1, commit is ok.  Pessimistic: start, set
    a savepoint, put a 2, roll back to the savepoint, get a is not found,
    commit is ok. *)
Example scenario_optimistic :
  exists h1 h2 h3 h4 c1 c2 c3 c4,
    start demo_optimistic = Returns (tt, h1, c1) /\
    put (b "a") (b "1") sink0 h1 = Returns (mkRdbStatus kOk EmptyString, h2, c2) /\
    get (b "a") false sink0 h2 =
      Returns ((Some (b "1"), mkRdbStatus kOk EmptyString), h3, c3) /\
    commit sink0 h3 = Returns (mkRdbStatus kOk EmptyString, h4, c4).
Proof. do 8 eexists; repeat split. Qed.

Example scenario_pessimistic :
  exists h1 h2 h3 h4 h5 h6 c1 c2 c3 c4 c5 c6,
    start demo_pessimistic = Returns (tt, h1, c1) /\
    set_savepoint h1 = Returns (tt, h2, c2) /\
    put (b "a") (b "2") sink0 h2 = Returns (mkRdbStatus kOk EmptyString, h3, c3) /\
    rollback_to_savepoint sink0 h3 =
      Returns (mkRdbStatus kOk EmptyString, h4, c4) /\
    get (b "a") false sink0 h4 =
      Returns ((Some [], mkRdbStatus kNotFound "NotFound: "), h5, c5) /\
    commit sink0 h5 = Returns (mkRdbStatus kOk EmptyString, h6, c6) /\
    option_map Ref.base (tx h6) = Some (Ref.data demo_store).
Proof. do 12 eexists; repeat split. Qed.

(** ** Further properties of the member functions *)

Section Further.

Context {E : Engine}.

Lemma exec_of_trace (op : Op) (h : TxBridge) :
  exec op h =
  match exec_trace op h with
  | Returns (h', _) => Returns h'
  | Fatal => Fatal
  end.
Proof.
  destruct op; unfold exec, exec_trace, after, traced;
    match goal with |- context [match ?m h with _ => _ end] =>
      destruct (m h) as [[[r h'] c]|] end; reflexivity.
Qed.

Lemma run_of_trace (ops : list Op) (h : TxBridge) :
  run ops h =
  match run_trace ops h with
  | Returns (h', _) => Returns h'
  | Fatal => Fatal
  end.
Proof.
  revert h; induction ops as [|op ops IH]; intro h; cbn; [reflexivity|].
  rewrite exec_of_trace.
  destruct (exec_trace op h) as [[h1 c1]|]; [|reflexivity].
  rewrite IH. destruct (run_trace ops h1) as [[h2 c2]|]; reflexivity.
Qed.

Lemma exec_tx_presence (op : Op) (h h' : TxBridge) :
  is_start op = false -> exec op h = Returns h' ->
  is_null (tx h') = is_null (tx h).
Proof.
  intros Hs H.
  destruct (tx h) as [t|] eqn:Ht.
  - assert (Ha : active h) by (unfold active; congruence).
    pose proof (exec_active op Ha H) as Ha'. unfold active in Ha'.
    destruct (tx h'); [reflexivity | congruence].
  - rewrite (exec_tx_absent op h Hs Ht H). reflexivity.
Qed.

End Further.

(** X1.  Whether the handle holds a transaction is settled by [start]
    alone: through any calls of the other member functions, [commit] and
    [rollback] among them, a null [tx] stays null and a live one stays
    live. *)
Theorem transaction_presence_only_changes_at_start :
  forall (E : Engine) (ops : list Op) (h h' : TxBridge),
    forallb (fun op => negb (is_start op)) ops = true ->
    run ops h = Returns h' ->
    is_null (tx h') = is_null (tx h).
Proof.
  intros E ops; induction ops as [|op ops IH]; intros h h' Hs Hr; cbn in *.
  - inversion Hr; reflexivity.
  - apply andb_true_iff in Hs as [Hop Hs].
    destruct (exec op h) as [h1|] eqn:H1; [|discriminate].
    rewrite (IH h1 h' Hs Hr).
    apply (exec_tx_presence op h); [now apply negb_true_iff | exact H1].
Qed.

Lemma transaction_presence_only_changes_at_start_witness :
  is_null (tx (with_tx (Some (snd (Tx_Rollback (snd (Tx_Commit
                                                     demo_optimistic_tx)))))
                 demo_optimistic_started))
  = is_null (tx demo_optimistic_started).
Proof.
  apply (@transaction_presence_only_changes_at_start Ref.engine
           [OpCommit sink0; OpRollback sink0]).
  - reflexivity.
  - reflexivity.
Defined.

(** X2.  Neither [commit] nor [rollback] ends the transaction as far as the
    bridge goes: with a live transaction each returns and leaves [tx]
    pointing at the transaction as the engine left it, and a [put] made
    afterwards is passed to the engine on that transaction like any other;
    what becomes of it is the engine's answer. *)
Theorem commit_and_rollback_keep_the_transaction :
  forall (E : Engine) (h : TxBridge) (t : Transaction)
         (key val : RustBytes) (status status' : RdbStatus),
    tx h = Some t ->
    (exists s1 h1 c1,
       commit status h = Returns (s1, h1, c1) /\
       tx h1 = Some (snd (Tx_Commit t)) /\
       put key val status' h1 =
         Returns
           (write_status
              (fst (Tx_Put (convert_slice key) (convert_slice val)
                      (snd (Tx_Commit t)))) status',
            with_tx (Some (snd (Tx_Put (convert_slice key) (convert_slice val)
                                  (snd (Tx_Commit t))))) h1,
            [Call_Put (convert_slice key) (convert_slice val)])) /\
    (exists s1 h1 c1,
       rollback status h = Returns (s1, h1, c1) /\
       tx h1 = Some (snd (Tx_Rollback t)) /\
       put key val status' h1 =
         Returns
           (write_status
              (fst (Tx_Put (convert_slice key) (convert_slice val)
                      (snd (Tx_Rollback t)))) status',
            with_tx (Some (snd (Tx_Put (convert_slice key) (convert_slice val)
                                  (snd (Tx_Rollback t))))) h1,
            [Call_Put (convert_slice key) (convert_slice val)])).
Proof.
  intros E h t key val status status' Ht.
  split.
  - unfold commit, tx_Commit.
    rewrite (relay_active Call_Commit Tx_Commit status h Ht).
    do 3 eexists; split; [reflexivity|]; split; [reflexivity|].
    unfold put, tx_Put.
    apply (relay_active _ _ status' (with_tx (Some (snd (Tx_Commit t))) h)
             (t := snd (Tx_Commit t)) eq_refl).
  - unfold rollback, tx_Rollback.
    rewrite (relay_active Call_Rollback Tx_Rollback status h Ht).
    do 3 eexists; split; [reflexivity|]; split; [reflexivity|].
    unfold put, tx_Put.
    apply (relay_active _ _ status' (with_tx (Some (snd (Tx_Rollback t))) h)
             (t := snd (Tx_Rollback t)) eq_refl).
Qed.

Lemma commit_and_rollback_keep_the_transaction_witness :
  (exists s1 h1 c1,
     commit sink0 demo_optimistic_started = Returns (s1, h1, c1) /\
     tx h1 = Some (snd (Tx_Commit demo_optimistic_tx)) /\
     put (b "a") (b "1") sink0 h1 =
       Returns
         (write_status
            (fst (Tx_Put (convert_slice (b "a")) (convert_slice (b "1"))
                    (snd (Tx_Commit demo_optimistic_tx)))) sink0,
          with_tx (Some (snd (Tx_Put (convert_slice (b "a"))
                                (convert_slice (b "1"))
                                (snd (Tx_Commit demo_optimistic_tx))))) h1,
          [Call_Put (convert_slice (b "a")) (convert_slice (b "1"))])) /\
  (exists s1 h1 c1,
     rollback sink0 demo_optimistic_started = Returns (s1, h1, c1) /\
     tx h1 = Some (snd (Tx_Rollback demo_optimistic_tx)) /\
     put (b "a") (b "1") sink0 h1 =
       Returns
         (write_status
            (fst (Tx_Put (convert_slice (b "a")) (convert_slice (b "1"))
                    (snd (Tx_Rollback demo_optimistic_tx)))) sink0,
          with_tx (Some (snd (Tx_Put (convert_slice (b "a"))
                                (convert_slice (b "1"))
                                (snd (Tx_Rollback demo_optimistic_tx))))) h1,
          [Call_Put (convert_slice (b "a")) (convert_slice (b "1"))])).
Proof.
  apply (@commit_and_rollback_keep_the_transaction Ref.engine
           demo_optimistic_started demo_optimistic_tx).
  reflexivity.
Defined.

(** X3.  On a reachable handle a member function other than [start] is
    undefined exactly when it dereferences [tx] and no transaction is live:
    before [start] every read, write, savepoint and terminal call and
    [clear_snapshot] and [iterator] are undefined, while the option setters
    and [set_snapshot] are defined in every reachable state. *)
Theorem undefined_exactly_without_transaction :
  forall (E : Engine) (h : TxBridge) (op : Op),
    reachable h -> is_start op = false ->
    (exec op h = Fatal <-> needs_tx op = true /\ tx h = None).
Proof.
  intros E h op Hr Hs.
  destruct (reachable_well_formed Hr) as [(ro & Hro & _) Hw Hb].
  unfold bound_when_active, active in Hb.
  destruct h as [o d x w r oo po]; cbn in *; subst r.
  destruct w as [w|]; [|congruence]. clear Hw.
  destruct op; try discriminate Hs; unfold_members; cbn;
    destruct x as [t|]; cbn;
    repeat (first [case_goal | progress cbn]);
    try (split; [discriminate | intros [? ?]; discriminate]);
    try (split; [reflexivity | intros _; reflexivity]);
    try (split; [intros _; split; reflexivity | reflexivity]);
    try (exfalso; apply Hb; [discriminate | first [assumption | reflexivity]]).
Qed.

Lemma undefined_exactly_without_transaction_witness :
  exec (OpPut (b "a") (b "1") sink0) demo_optimistic = Fatal <->
  needs_tx (E := Ref.engine) (OpPut (b "a") (b "1") sink0) = true /\
  tx demo_optimistic = None.
Proof.
  apply (@undefined_exactly_without_transaction Ref.engine demo_optimistic).
  - exists demo_optimistic, []; split; [|reflexivity].
    left; exists (Some demo_store); reflexivity.
  - reflexivity.
Defined.

(** X4.  [get] is undefined exactly when the transaction or the read options
    are null, or when it reads for update and the handle has no store: the
    plain read does not touch the store pointers. *)
Theorem get_undefined_exactly :
  forall (E : Engine) (h : TxBridge) (key : RustBytes) (for_update : bool)
         (status : RdbStatus),
    get key for_update status h = Fatal <->
    tx h = None \/ r_opts h = None \/
    (for_update = true /\ get_db h = None).
Proof.
  intros E h key for_update status.
  unfold get, tx_Get, tx_GetForUpdate, bind, deref, pure, on_tx, stored,
    make_unique.
  destruct for_update; destruct (r_opts h) as [ro|]; cbn;
    try (split; [intros _; right; left; reflexivity | reflexivity]).
  - destruct (get_db h) as [db|]; cbn.
    + destruct (tx h) as [t|]; cbn.
      * destruct (Tx_GetForUpdate ro (DefaultColumnFamily db)
                    (convert_slice key) PinnableSlice_new t) as [[s v] t'].
        split; [discriminate|].
        intros [H | [H | [_ H]]]; discriminate.
      * split; [intros _; left; reflexivity | reflexivity].
    + split; [intros _; right; right; split; reflexivity | reflexivity].
  - destruct (tx h) as [t|]; cbn.
    + destruct (Tx_Get ro (convert_slice key) PinnableSlice_new t)
        as [[s v] t'].
      split; [discriminate|].
      intros [H | [H | [H _]]]; discriminate.
    + split; [intros _; left; reflexivity | reflexivity].
Qed.

(** X5.  A member function that dereferences [tx] changes nothing in the
    handle but the transaction: the store pointers, the write options, the
    read options and both transaction options are as before. *)
Theorem transaction_calls_leave_the_options :
  forall (E : Engine) (op : Op) (h h' : TxBridge),
    needs_tx op = true -> exec op h = Returns h' ->
    h' = with_tx (tx h') h.
Proof.
  intros E op h h' Hn H.
  destruct h; destruct op; try discriminate Hn; member_inv; reflexivity.
Qed.

Lemma transaction_calls_leave_the_options_witness :
  with_tx (Some (snd (Tx_Put (b "a") (b "1") demo_optimistic_tx)))
    demo_optimistic_started
  = with_tx
      (tx (with_tx (Some (snd (Tx_Put (b "a") (b "1") demo_optimistic_tx)))
             demo_optimistic_started))
      demo_optimistic_started.
Proof.
  apply (@transaction_calls_leave_the_options Ref.engine
           (OpPut (b "a") (b "1") sink0)).
  - reflexivity.
  - reflexivity.
Defined.

Section TraceLemmas.

Context {E : Engine}.

Lemma exec_trace_count (op : Op) (h h' : TxBridge) (calls : list EngineCall) :
  active h -> is_start op = false ->
  exec_trace op h = Returns (h', calls) ->
  List.length calls = (if calls_engine op then 1 else 0) /\ active h'.
Proof.
  unfold active; intros Ha Hs H.
  destruct h as [o d [t|] w r oo po]; cbn in Ha; [|congruence].
  destruct op; try discriminate Hs; trace_inv;
    split; try reflexivity; discriminate.
Qed.

Lemma exec_trace_silent (op : Op) (h h' : TxBridge) (calls : list EngineCall) :
  tx h = None -> is_start op = false ->
  exec_trace op h = Returns (h', calls) ->
  calls = [] /\ tx h' = None.
Proof.
  intros Ht Hs H.
  destruct h; cbn in Ht; subst; destruct op; try discriminate Hs; trace_inv;
    split; reflexivity.
Qed.

Lemma exec_trace_reads (op : Op) (h h' : TxBridge) (calls : list EngineCall) :
  ignores_range_deletions h ->
  exec_trace op h = Returns (h', calls) ->
  Forall reads_ignoring_range_deletions calls /\ ignores_range_deletions h'.
Proof.
  intros (ro & Hro & Hird) H.
  unfold ignores_range_deletions, reads_ignoring_range_deletions.
  destruct h; cbn in Hro; subst; destruct op; trace_inv;
    (split;
     [ repeat constructor; cbn; intros ro' Heq; inversion Heq; subst;
       assumption
     | eauto ]).
Qed.

End TraceLemmas.

(** X6.  With a live transaction the engine is called once for every read,
    write, deletion, savepoint call, [clear_snapshot], [commit], [rollback]
    and [set_snapshot(true)], and not at all for the option setters,
    [iterator] and [set_snapshot(false)]: a run of member functions makes
    exactly as many engine calls as it has calls of the first kind. *)
Theorem one_engine_call_per_transaction_call :
  forall (E : Engine) (ops : list Op) (h h' : TxBridge)
         (calls : list EngineCall),
    active h ->
    forallb (fun op => negb (is_start op)) ops = true ->
    run_trace ops h = Returns (h', calls) ->
    List.length calls = List.length (filter calls_engine ops).
Proof.
  intros E ops; induction ops as [|op ops IH]; intros h h' calls Ha Hs Hr;
    cbn in *.
  - inversion Hr; reflexivity.
  - apply andb_true_iff in Hs as [Hop Hs]. apply negb_true_iff in Hop.
    destruct (exec_trace op h) as [[h1 c1]|] eqn:H1; [|discriminate].
    destruct (run_trace ops h1) as [[h2 c2]|] eqn:H2; [|discriminate].
    inversion Hr; subst.
    destruct (exec_trace_count op Ha Hop H1) as [Hlen Ha1].
    rewrite length_app, Hlen, (IH h1 h' c2 Ha1 Hs H2).
    destruct (calls_engine op); reflexivity.
Qed.

Lemma one_engine_call_per_transaction_call_witness :
  List.length [Call_SetSnapshot (E := Ref.engine); Call_SetSavePoint;
          Call_Put (b "a") (b "1");
          Call_Get (ReadOptions.mk false true true) (b "a"); Call_Commit]
  = List.length (filter calls_engine
              [OpSetSnapshot true; OpVerifyChecksums false; OpIterator;
               OpSetSavepoint; OpSetSnapshot false;
               OpPut (b "a") (b "1") sink0; OpGet (b "a") false sink0;
               OpAssignWOpts (demo_w_opts true true); OpCommit sink0]).
Proof.
  eapply (@one_engine_call_per_transaction_call Ref.engine _
            demo_optimistic_started).
  - exact demo_optimistic_started_active.
  - reflexivity.
  - vm_compute; reflexivity.
Defined.

(** X7.  Before [start] nothing reaches the engine: on a handle with no
    transaction, whatever member functions other than [start] are called and
    return, no engine call is made and the transaction stays null. *)
Theorem no_engine_call_before_start :
  forall (E : Engine) (ops : list Op) (h h' : TxBridge)
         (calls : list EngineCall),
    tx h = None ->
    forallb (fun op => negb (is_start op)) ops = true ->
    run_trace ops h = Returns (h', calls) ->
    calls = [] /\ tx h' = None.
Proof.
  intros E ops; induction ops as [|op ops IH]; intros h h' calls Ht Hs Hr;
    cbn in *.
  - inversion Hr; subst; auto.
  - apply andb_true_iff in Hs as [Hop Hs]. apply negb_true_iff in Hop.
    destruct (exec_trace op h) as [[h1 c1]|] eqn:H1; [|discriminate].
    destruct (run_trace ops h1) as [[h2 c2]|] eqn:H2; [|discriminate].
    inversion Hr; subst.
    destruct (exec_trace_silent op h Ht Hop H1) as [-> Ht1].
    exact (IH h1 h' c2 Ht1 Hs H2).
Qed.

Lemma no_engine_call_before_start_witness :
  @nil (EngineCall (E := Ref.engine)) = [] /\
  tx (with_p_tx_opts (Some (TransactionOptions.mk true))
        (with_r_opts (Some (ReadOptions.mk true false true))
           demo_pessimistic)) = None.
Proof.
  apply (@no_engine_call_before_start Ref.engine
           [OpFillCache false; OpSetSnapshot true] demo_pessimistic).
  - reflexivity.
  - reflexivity.
  - reflexivity.
Defined.

(** X8.  The bridge never asks the engine for a read that heeds range
    deletions: in any run of member functions from either constructor,
    every [Get] and [GetForUpdate] call carries read options with
    [ignore_range_deletions = true]. *)
Theorem every_read_ignores_range_deletions :
  forall (E : Engine) (ops : list Op) (h0 h : TxBridge)
         (calls : list EngineCall),
    constructed h0 ->
    run_trace ops h0 = Returns (h, calls) ->
    Forall reads_ignoring_range_deletions calls.
Proof.
  intros E ops h0 h calls Hc.
  pose proof (constructed_ignores_range_deletions Hc) as Hi.
  clear Hc; revert h0 h calls Hi.
  induction ops as [|op ops IH]; intros h0 h calls Hi Hr; cbn in Hr.
  - inversion Hr; constructor.
  - destruct (exec_trace op h0) as [[h1 c1]|] eqn:H1; [|discriminate].
    destruct (run_trace ops h1) as [[h2 c2]|] eqn:H2; [|discriminate].
    inversion Hr; subst.
    destruct (exec_trace_reads op Hi H1) as [Hc1 Hi1].
    apply Forall_app; split; [exact Hc1 | exact (IH h1 h c2 Hi1 H2)].
Qed.

Lemma every_read_ignores_range_deletions_witness :
  Forall reads_ignoring_range_deletions
    [Call_BeginTransaction_p (E := Ref.engine) demo_store
       (demo_w_opts false false) (TransactionOptions.mk false);
     Call_Get (ReadOptions.mk false false true) (b "k");
     Call_GetForUpdate (E := Ref.engine) (ReadOptions.mk false false true)
       "default"%string (b "busy")].
Proof.
  eapply (@every_read_ignores_range_deletions Ref.engine
            [OpVerifyChecksums false; OpFillCache false; OpStart;
             OpGet (b "k") false sink0; OpGet (b "busy") true sink0]
            demo_pessimistic).
  - right; exists (Some demo_store); reflexivity.
  - vm_compute; reflexivity.
Defined.


(** X10.  The flags set by [verify_checksums] and [fill_cache] are the ones
    the engine is given: on a reachable handle with a live transaction, after
    [verify_checksums(v)] and [fill_cache(f)] every [get], plain or for
    update, makes its one engine call with read options that have
    [verify_checksums = v], [fill_cache = f] and
    [ignore_range_deletions = true]. *)
Theorem read_options_reach_the_engine :
  forall (E : Engine) (h : TxBridge) (v f : bool),
    reachable h -> active h ->
    exists h1 ro,
      run [OpVerifyChecksums v; OpFillCache f] h = Returns h1 /\
      r_opts h1 = Some ro /\
      ReadOptions.verify_checksums ro = v /\
      ReadOptions.fill_cache ro = f /\
      ReadOptions.ignore_range_deletions ro = true /\
      forall key for_update status,
        exists r h2 c,
          get key for_update status h1 = Returns (r, h2, [c]) /\
          call_read_options c = Some ro.
Proof.
  intros E h v f Hr Ha.
  destruct (reachable_active Hr Ha) as (t & ro & db & Ht & Hro & Hdb & Hird).
  destruct h as [o d x w r oo po]; cbn in Ht, Hro; subst x r.
  eexists; eexists; split; [reflexivity|].
  split; [reflexivity|]. split; [reflexivity|]. split; [reflexivity|].
  split; [exact Hird|].
  intros key for_update status.
  destruct for_update.
  - erewrite get_for_update_active;
      [do 3 eexists; split; reflexivity | reflexivity | reflexivity | exact Hdb].
  - erewrite get_plain_active;
      [do 3 eexists; split; reflexivity | reflexivity | reflexivity].
Qed.

Lemma read_options_reach_the_engine_witness :
  exists h1 ro,
    run [OpVerifyChecksums false; OpFillCache false] demo_pessimistic_started
      = Returns h1 /\
    r_opts h1 = Some ro /\
    ReadOptions.verify_checksums ro = false /\
    ReadOptions.fill_cache ro = false /\
    ReadOptions.ignore_range_deletions ro = true /\
    forall key for_update status,
      exists r h2 c,
        get key for_update status h1 = Returns (r, h2, [c]) /\
        call_read_options c = Some ro.
Proof.
  apply (@read_options_reach_the_engine Ref.engine demo_pessimistic_started).
  - exact demo_pessimistic_started_reachable.
  - exact demo_pessimistic_started_active.
Defined.

(** X11.  Once a transaction is live the staged transaction options are
    inert: no member function other than [start] reads or writes
    [o_tx_opts] or [p_tx_opts] then, so whatever is put in their place each
    call returns the same value (status, buffer), leaves the same
    transaction and the same other fields, and makes the same engine
    calls. *)
Theorem transaction_options_inert_when_active :
  forall (E : Engine) (h : TxBridge),
    active h ->
    unaffected_by_tx_options get_w_opts h /\
    (forall wo, unaffected_by_tx_options (assign_w_opts wo) h) /\
    (forall val, unaffected_by_tx_options (verify_checksums val) h) /\
    (forall val, unaffected_by_tx_options (fill_cache val) h) /\
    unaffected_by_tx_options iterator h /\
    (forall val, unaffected_by_tx_options (set_snapshot val) h) /\
    unaffected_by_tx_options clear_snapshot h /\
    (forall key for_update status,
       unaffected_by_tx_options (get key for_update status) h) /\
    (forall key val status, unaffected_by_tx_options (put key val status) h) /\
    (forall key status, unaffected_by_tx_options (del key status) h) /\
    (forall status, unaffected_by_tx_options (commit status) h) /\
    (forall status, unaffected_by_tx_options (rollback status) h) /\
    (forall status,
       unaffected_by_tx_options (rollback_to_savepoint status) h) /\
    (forall status, unaffected_by_tx_options (pop_savepoint status) h) /\
    unaffected_by_tx_options set_savepoint h.
Proof.
  intros E h Ha. unfold active in Ha.
  destruct h as [o d [t|] w r oo0 po0]; cbn in Ha; [|congruence].
  repeat (match goal with |- _ /\ _ => split end);
    intros; intros oo po;
    unfold with_tx_opts, with_o_tx_opts, with_p_tx_opts, with_tx, get_db;
    unfold_members;
    unfold with_tx, with_w_opts, with_r_opts, with_o_tx_opts, with_p_tx_opts,
      get_db;
    cbn;
    repeat (first [progress cbn | case_goal]); reflexivity.
Qed.

Lemma transaction_options_inert_when_active_witness :
  unaffected_by_tx_options (get (b "k") true sink0) demo_optimistic_started /\
  unaffected_by_tx_options (set_snapshot true) demo_optimistic_started.
Proof.
  destruct (@transaction_options_inert_when_active Ref.engine
              demo_optimistic_started demo_optimistic_started_active)
    as (_ & _ & _ & _ & _ & Hsnap & _ & Hget & _).
  split; [exact (Hget (b "k") true sink0) | exact (Hsnap true)].
Defined.

(** On the reference engine: a [get] returns the same buffer and status and
    makes the same call with the pessimistic options put in place of the
    optimistic ones. *)
Example get_with_other_tx_options :
  exists h' h'' c,
    get (b "k") false sink0 demo_optimistic_started =
      Returns ((Some (b "old"), mkRdbStatus kOk EmptyString), h', c) /\
    get (b "k") false sink0
      (with_tx_opts None (Some (TransactionOptions.mk true))
         demo_optimistic_started) =
      Returns ((Some (b "old"), mkRdbStatus kOk EmptyString), h'', c).
Proof. do 3 eexists; split; reflexivity. Qed.

(** X12.  [set_snapshot] only ever attaches: with a live transaction a
    series of [set_snapshot] calls makes one [SetSnapshot] call for each
    [true] and nothing for a [false], so a [false] after a [true] does not
    detach; everything in the handle but the transaction is left as it
    was. *)
Theorem set_snapshot_only_attaches :
  forall (E : Engine) (vals : list bool) (h : TxBridge),
    active h ->
    exists h',
      run_trace (map OpSetSnapshot vals) h =
        Returns (h', repeat Call_SetSnapshot
                       (List.length (filter (fun v : bool => v) vals))) /\
      h' = with_tx (tx h') h /\ active h'.
Proof.
  intros E vals; induction vals as [|v vals IH]; intros h Ha; cbn.
  - exists h; destruct h; auto.
  - unfold active in Ha.
    destruct h as [o d [t|] w r oo po]; cbn in Ha; [|congruence].
    destruct v; unfold traced, set_snapshot, tx_SetSnapshot, on_tx, pure; cbn.
    + match goal with |- context [run_trace _ ?h1] =>
        destruct (IH h1) as (h' & -> & Hh' & Ha'); [discriminate|] end.
      exists h'; cbn; split; [reflexivity|]; split; [|exact Ha'].
      rewrite Hh'; reflexivity.
    + match goal with |- context [run_trace _ ?h1] =>
        destruct (IH h1) as (h' & -> & Hh' & Ha'); [discriminate|] end.
      exists h'; cbn; split; [reflexivity|]; split; [|exact Ha'].
      exact Hh'.
Qed.

Lemma set_snapshot_only_attaches_witness :
  exists h',
    run_trace (map OpSetSnapshot [true; false; true; false])
      demo_optimistic_started =
      Returns (h', repeat Call_SetSnapshot
                     (List.length (filter (fun v : bool => v)
                                     [true; false; true; false]))) /\
    h' = with_tx (tx h') demo_optimistic_started /\ active h'.
Proof.
  apply (@set_snapshot_only_attaches Ref.engine [true; false; true; false]
           demo_optimistic_started).
  exact demo_optimistic_started_active.
Defined.

(** X13.  Only [start] hands write options to the engine: in any run of the
    other member functions no engine call carries write options, whatever
    the handle holds and however often the caller changes them through
    [get_w_opts]. *)
Theorem write_options_only_go_in_at_start :
  forall (E : Engine) (ops : list Op) (h h' : TxBridge)
         (calls : list EngineCall),
    forallb (fun op => negb (is_start op)) ops = true ->
    run_trace ops h = Returns (h', calls) ->
    Forall (fun c => call_write_options c = None) calls.
Proof.
  intros E ops; induction ops as [|op ops IH]; intros h h' calls Hs Hr;
    cbn in *.
  - inversion Hr; constructor.
  - apply andb_true_iff in Hs as [Hop Hs]. apply negb_true_iff in Hop.
    destruct (exec_trace op h) as [[h1 c1]|] eqn:H1; [|discriminate].
    destruct (run_trace ops h1) as [[h2 c2]|] eqn:H2; [|discriminate].
    inversion Hr; subst.
    apply Forall_app; split; [|exact (IH h1 h' c2 Hs H2)].
    clear IH H2 Hr Hs.
    destruct h; destruct op; try discriminate Hop; trace_inv;
      repeat constructor.
Qed.

Lemma write_options_only_go_in_at_start_witness :
  Forall (fun c => call_write_options c = None)
    [Call_Put (E := Ref.engine) (b "a") (b "1"); Call_Delete (b "k");
     Call_Commit].
Proof.
  eapply (@write_options_only_go_in_at_start Ref.engine
            [OpAssignWOpts (demo_w_opts true true);
             OpPut (b "a") (b "1") sink0;
             OpAssignWOpts (demo_w_opts false true);
             OpDel (b "k") sink0; OpCommit sink0]
            demo_optimistic_started).
  - reflexivity.
  - vm_compute; reflexivity.
Defined.
